(** * dubbo-go: the file-backed service discovery and the metric configuration

    A shallow embedding of

    - [registry/file/service_discovery.go] (package [file]): the discovery
      client kept on top of the file-system configuration store, its
      process-wide instance cache and its event entry points;
    - the metric configuration value object of package [config]
      ([MetricConfig] and its default-fallback accessors).

    Go values are modelled as follows.  A Go [int] or [time.Duration] is a
    [Z] (no arithmetic is performed on them here, only comparisons and
    decimal rendering); a Go [string] is a [string]; a Go [map] is a [gmap]
    and a [gxset.HashSet] a [gset]; a possibly-nil [error] is an
    [option error]; a [(T, error)] result is a [result T]; a method with a
    pointer receiver is a function from the receiver's state to a result and
    the new state.  Calls to the logger are not modelled: no result depends
    on them. *)

From Stdlib Require Import Ascii String.
From stdpp Require Import gmap strings list fin_maps pretty sorting.

Open Scope string_scope.
Open Scope Z_scope.
Open Scope list_scope.

(** ** Go errors and results *)

(** An [error] value: a leaf error carrying its message ([perrors.New], or
    whatever a collaborator returns), or [perrors.WithStack] around a cause. *)
Inductive error : Type :=
| errorString (msg : string)
| withStack (cause : error).

(** The result of a Go function returning [(T, error)]. *)
Inductive result (A : Type) : Type :=
| Ok (a : A)
| Err (err : error).
Arguments Ok {A} a.
Arguments Err {A} err.

(** A Go slice, as far as this code observes one: the [nil] slice, or a
    slice made by [make] and grown by [append]. *)
Inductive slice (A : Type) : Type :=
| nil_slice
| mk_slice (l : list A).
Arguments nil_slice {A}.
Arguments mk_slice {A} l.

(** [make([]T, 0, n)]: an empty slice that is not [nil]. *)
Definition make_slice {A : Type} : slice A := mk_slice [].

(** [append(s, x)]. *)
Definition append {A : Type} (s : slice A) (x : A) : slice A :=
  match s with
  | nil_slice => mk_slice [x]
  | mk_slice l => mk_slice (l ++ [x])
  end.

(** The elements a [for ... range] over the slice visits, in order. *)
Definition elems {A : Type} (s : slice A) : list A :=
  match s with
  | nil_slice => []
  | mk_slice l => l
  end.

(** [s == nil]. *)
Definition is_nil {A : Type} (s : slice A) : bool :=
  match s with
  | nil_slice => true
  | mk_slice _ => false
  end.

(** [strconv.Itoa]: the decimal rendering of an integer, with a leading
    minus sign for a negative one. *)
Definition strconv_Itoa (n : Z) : string := pretty n.

(** ** Package [config]: the metric configuration *)

(** [time.Second], in nanoseconds (a [time.Duration] counts nanoseconds). *)
Definition Second : Z := 1000000000.

Definition defaultMaxSubCategoryCount : Z := 20.
Definition defaultGlobalInterval : Z := 60 * Second.
Definition defaultMaxMetricCountPerRegistry : Z := 5000.
Definition defaultMaxCompassErrorCodeCount : Z := 100.
Definition defaultMaxCompassAddonCount : Z := 20.

(** [LevelInterval] is a Go map that may be [nil]: [None] is the nil map. *)
Record MetricConfig : Type := {
  Manager : string;
  MaxSubCategoryCount : Z;
  GlobalInterval : Z;
  LevelInterval : option (gmap Z Z);
  MaxMetricCountPerRegistry : Z;
  MaxCompassErrorCodeCount : Z;
  MaxCompassAddonCount : Z
}.

Definition GetMaxCompassAddonCount (mc : MetricConfig) : Z :=
  if mc.(MaxCompassAddonCount) <=? 0 then defaultMaxCompassAddonCount
  else mc.(MaxCompassAddonCount).

Definition GetMaxCompassErrorCodeCount (mc : MetricConfig) : Z :=
  if mc.(MaxCompassErrorCodeCount) <=? 0 then defaultMaxCompassErrorCodeCount
  else mc.(MaxCompassErrorCodeCount).

Definition GetMaxMetricCountPerRegistry (mc : MetricConfig) : Z :=
  if mc.(MaxMetricCountPerRegistry) <=? 0 then defaultMaxMetricCountPerRegistry
  else mc.(MaxMetricCountPerRegistry).

Definition GetGlobalInterval (mc : MetricConfig) : Z :=
  if mc.(GlobalInterval) <=? Second then defaultGlobalInterval
  else mc.(GlobalInterval).

Definition GetLevelInterval (mc : MetricConfig) (metricLevel : Z) : Z :=
  match mc.(LevelInterval) with
  | None => GetGlobalInterval mc
  | Some levels =>
      match levels !! metricLevel with
      | Some result =>
          if Second <=? result then result else GetGlobalInterval mc
      | None => GetGlobalInterval mc
      end
  end.

(** [DEFAULT_KEY] stands for [constant.DEFAULT_KEY], a constant of package
    [common/constant], whose declaration is not part of the sources at
    hand. *)
Definition GetMetricManagerName (DEFAULT_KEY : string) (mc : MetricConfig)
  : string :=
  if (Z.of_nat (String.length mc.(Manager)) <=? 0) then DEFAULT_KEY
  else mc.(Manager).

Definition GetMaxSubCategoryCount (mc : MetricConfig) : Z :=
  if mc.(MaxSubCategoryCount) <=? 0 then defaultMaxSubCategoryCount
  else mc.(MaxSubCategoryCount).

(** [&MetricConfig{}]: the zero value of the struct. *)
Definition zeroMetricConfig : MetricConfig :=
  {| Manager := "";
     MaxSubCategoryCount := 0;
     GlobalInterval := 0;
     LevelInterval := None;
     MaxMetricCountPerRegistry := 0;
     MaxCompassErrorCodeCount := 0;
     MaxCompassAddonCount := 0 |}.

(** [GetMetricConfig].  The two arguments are the [MetricConfig] pointers of
    [GetProviderConfig()] and [GetConsumerConfig()] (functions of the
    package whose declarations are not part of the sources at hand); [None]
    is the nil pointer, also in the result. *)
Definition GetMetricConfig (providerMetricConfig consumerMetricConfig
    : option MetricConfig) : option MetricConfig :=
  let result := providerMetricConfig in
  let result :=
    match result with
    | None => consumerMetricConfig
    | Some _ => result
    end in
  let result :=
    match result with
    | None => Some zeroMetricConfig
    | Some _ => result
    end in
  result.

(** ** Package [registry]: the instance value model and change events *)

(** Modelled from the spec: [registry.ServiceInstance] (package [registry]
    is not part of the sources at hand).  The discovery client reads an
    instance only through its getters; the fields are the ones the spec's
    data model lists. *)
Record ServiceInstance : Type := {
  Id : string;
  ServiceName : string;
  Host : string;
  Port : Z;
  Metadata : gmap string string;
  Healthy : bool
}.

#[global] Instance ServiceInstance_eq_dec : EqDecision ServiceInstance.
Proof. solve_decision. Defined.

(** The change event: a service name and the full instance list carried
    with it ([registry.NewServiceInstancesChangedEvent]). *)
Record ServiceInstancesChangedEvent : Type := {
  EventServiceName : string;
  EventInstances : slice ServiceInstance
}.

Definition NewServiceInstancesChangedEvent
    (serviceName : string) (instances : slice ServiceInstance)
  : ServiceInstancesChangedEvent :=
  {| EventServiceName := serviceName; EventInstances := instances |}.

(** A subscriber to the change events of one service name.  [ListenerTag]
    tells two subscribers of the same name apart. *)
Record ServiceInstancesChangedListener : Type := {
  ListenerServiceName : string;
  ListenerTag : nat
}.

#[global] Instance ServiceInstancesChangedListener_eq_dec :
  EqDecision ServiceInstancesChangedListener.
Proof. solve_decision. Defined.

(** ** Collaborators of the discovery client *)

(** [encoding/json] on service instances: [json.Marshal] of an instance and
    [json.Unmarshal] into a fresh [registry.DefaultServiceInstance]. *)
Class JSON : Type := {
  json_Marshal : ServiceInstance → result string;
  json_Unmarshal : string → result ServiceInstance
}.

(** An entry of a directory listing ([os.FileInfo], as far as it is read). *)
Record FileInfo : Type := {
  Name : string;
  IsDir : bool
}.

Module config_center.

(** The file-system configuration store the client holds
    ([file.FileSystemDynamicConfiguration]), by its methods, together with
    the two operating-system calls the client makes on the same file system.
    [S] is the state behind the handle: the store and the files under its
    root.  A method that writes returns the error (or none) and the new
    state; a method that only reads returns its result.  [AddListener] takes
    the key and the group; the listener the client passes is always a fresh
    [RegistryConfigurationListener], which does nothing.  The store has no
    access to the event dispatcher. *)
Class FileSystemDynamicConfiguration (S : Type) : Type := {
  PublishConfig : string → string → string → S → option error * S;
  RemoveConfig : string → string → S → option error * S;
  GetProperties : string → string → S → result string;
  GetConfigKeysByGroup : string → S → result (gset string);
  AddListener : string → string → S → S;
  GetPath : string → string → S → string;
  RootPath : S → string;
  Close : S → option error * S;
  os_Remove : string → S → option error * S;
  ioutil_ReadDir : string → S → list FileInfo
}.

End config_center.
Import config_center.

(** The process-wide event dispatcher ([extension.GetGlobalDispatcher()]),
    by the one method the client calls. *)
Class EventDispatcher (D : Type) : Type := {
  Dispatch : ServiceInstancesChangedEvent → D → D
}.

(** ** Package [file]: the discovery client *)

(** [fileSystemServiceDiscovery]. *)
Record fileSystemServiceDiscovery (S : Type) : Type := {
  dynamicConfiguration : S;
  rootPath : string;
  fileMap : gmap string string
}.
Arguments dynamicConfiguration {S} _.
Arguments rootPath {S} _.
Arguments fileMap {S} _.

Definition getServiceInstanceId (si : ServiceInstance) : string :=
  if decide (si.(Id) = "") then si.(Host) +:+ "." +:+ strconv_Itoa si.(Port)
  else si.(Id).

Definition getServiceName (si : ServiceInstance) : string := si.(ServiceName).

Section Client.
Context `{JSON} {S : Type} `{FileSystemDynamicConfiguration S}.

(** [getContent]: the JSON text of the instance. *)
Definition getContent (si : ServiceInstance) : result string :=
  match json_Marshal si with
  | Err err => Err err
  | Ok bytes => Ok bytes
  end.

Definition releaseAndRemoveRegistrationFiles (file : string) (dc : S) : S :=
  (os_Remove file dc).2.

(** [Destroy]: the result of [Close] is dropped, every tracked file is
    removed (each removal's result dropped), and [nil] is returned. *)
Definition Destroy (fssd : fileSystemServiceDiscovery S)
  : option error * fileSystemServiceDiscovery S :=
  let dc := (Close fssd.(dynamicConfiguration)).2 in
  let dc := foldl (λ dc f, releaseAndRemoveRegistrationFiles f dc) dc
                  (map_to_list fssd.(fileMap)).*2 in
  (None, {| dynamicConfiguration := dc;
            rootPath := fssd.(rootPath);
            fileMap := fssd.(fileMap) |}).

Definition Register (instance : ServiceInstance)
    (fssd : fileSystemServiceDiscovery S)
  : option error * fileSystemServiceDiscovery S :=
  let id := getServiceInstanceId instance in
  let sn := getServiceName instance in
  match getContent instance with
  | Err err => (Some err, fssd)
  | Ok c =>
      match PublishConfig id sn c fssd.(dynamicConfiguration) with
      | (Some err, dc) =>
          (Some (withStack err),
           {| dynamicConfiguration := dc;
              rootPath := fssd.(rootPath);
              fileMap := fssd.(fileMap) |})
      | (None, dc) =>
          (None,
           {| dynamicConfiguration := dc;
              rootPath := fssd.(rootPath);
              fileMap := <[id := GetPath id sn dc]> fssd.(fileMap) |})
      end
  end.

Definition Update (instance : ServiceInstance)
    (fssd : fileSystemServiceDiscovery S)
  : option error * fileSystemServiceDiscovery S :=
  Register instance fssd.

Definition Unregister (instance : ServiceInstance)
    (fssd : fileSystemServiceDiscovery S)
  : option error * fileSystemServiceDiscovery S :=
  let id := getServiceInstanceId instance in
  let sn := getServiceName instance in
  match RemoveConfig id sn fssd.(dynamicConfiguration) with
  | (Some err, dc) =>
      (Some err,
       {| dynamicConfiguration := dc;
          rootPath := fssd.(rootPath);
          fileMap := fssd.(fileMap) |})
  | (None, dc) =>
      (None,
       {| dynamicConfiguration := dc;
          rootPath := fssd.(rootPath);
          fileMap := delete instance.(Id) fssd.(fileMap) |})
  end.

Definition GetDefaultPageSize (fssd : fileSystemServiceDiscovery S) : Z := 100.

(** [GetServices]: the names of the directories under the store's root; the
    error of [ioutil.ReadDir] is dropped. *)
Definition GetServices (fssd : fileSystemServiceDiscovery S) : gset string :=
  let dc := fssd.(dynamicConfiguration) in
  foldl (λ (r : gset string) file,
           if file.(IsDir) then r ∪ {[ file.(Name) ]} else r)
        ∅ (ioutil_ReadDir (RootPath dc) dc).

(** One turn of the loop of [GetInstances]: the record under [id] is read
    and decoded, and appended when both steps succeed. *)
Definition collectInstance (serviceName : string) (dc : S)
    (si : slice ServiceInstance) (id : string) : slice ServiceInstance :=
  match GetProperties id serviceName dc with
  | Err _ => si
  | Ok p =>
      match json_Unmarshal p with
      | Err _ => si
      | Ok dsi => append si dsi
      end
  end.

(** [GetInstances].  The keys of the set are visited in the order
    [elements] gives them (Go leaves the order of a set's values open). *)
Definition GetInstances (serviceName : string)
    (fssd : fileSystemServiceDiscovery S) : slice ServiceInstance :=
  let dc := fssd.(dynamicConfiguration) in
  match GetConfigKeysByGroup serviceName dc with
  | Err _ => make_slice
  | Ok set => foldl (collectInstance serviceName dc) make_slice (elements set)
  end.

(** [AddListener] of the client: the listener is accepted and dropped. *)
Definition AddListener (listener : ServiceInstancesChangedListener)
    (fssd : fileSystemServiceDiscovery S)
  : option error * fileSystemServiceDiscovery S :=
  (None, fssd).

Section Events.
Context {D : Type} `{EventDispatcher D}.

Definition DispatchEvent (event : ServiceInstancesChangedEvent) (d : D)
  : option error * D :=
  (None, Dispatch event d).

Definition DispatchEventByServiceName (serviceName : string)
    (fssd : fileSystemServiceDiscovery S) (d : D) : option error * D :=
  DispatchEvent
    (NewServiceInstancesChangedEvent serviceName (GetInstances serviceName fssd))
    d.

Definition DispatchEventForInstances (serviceName : string)
    (instances : slice ServiceInstance) (d : D) : option error * D :=
  DispatchEvent (NewServiceInstancesChangedEvent serviceName instances) d.

End Events.
End Client.

(** ** The instance cache and the constructor *)

(** A named backend configuration ([config.ServiceDiscoveryConfig]), as far
    as the constructor reads it. *)
Record ServiceDiscoveryConfig : Type := {
  Protocol : string
}.

(** The elements of a path between its slashes: at least one, and an empty
    one wherever two slashes meet or the path starts or ends with one. *)
Fixpoint pathElements (p : string) : list string :=
  match p with
  | EmptyString => [EmptyString]
  | String c rest =>
      if decide (c = "/"%char) then EmptyString :: pathElements rest
      else match pathElements rest with
           | [] => [String c EmptyString]
           | e :: es => String c e :: es
           end
  end.

(** [strings.Join]: the elements with [sep] between them. *)
Fixpoint strings_Join (elem : list string) (sep : string) : string :=
  match elem with
  | [] => ""
  | [e] => e
  | e :: rest => e +:+ sep +:+ strings_Join rest sep
  end.

(** One element met by [path.Clean]; [kept] are the elements written so
    far, the last one first.  An empty element and [.] are dropped; [..]
    removes the element before it, is dropped at the root, and is kept at
    the start of a path that is not rooted. *)
Definition cleanElement (rooted : bool) (kept : list string) (e : string)
  : list string :=
  if decide (e = "" ∨ e = ".") then kept
  else if decide (e = "..") then
    match kept with
    | top :: below => if decide (top = "..") then ".." :: kept else below
    | [] => if rooted then [] else [".."]
    end
  else e :: kept.

(** [path.Clean]: the shortest path naming the same place; the empty path
    becomes [.]. *)
Definition path_Clean (p : string) : string :=
  match p with
  | EmptyString => "."
  | String c _ =>
      let rooted := bool_decide (c = "/"%char) in
      let kept := reverse (foldl (cleanElement rooted) [] (pathElements p)) in
      if rooted then "/" +:+ strings_Join kept "/"
      else if decide (kept = []) then "." else strings_Join kept "/"
  end.

(** [path.Join]: the elements from the first non-empty one on, joined by a
    slash and cleaned; the empty string when every element is empty. *)
Fixpoint path_Join (elem : list string) : string :=
  match elem with
  | [] => ""
  | e :: rest =>
      if decide (e = "") then path_Join rest
      else path_Clean (strings_Join elem "/")
  end.

(** The process-wide state the constructor reads and writes.  A client is
    referred to by its address in [heap] (the pointer [sd]); [instanceMap]
    is the package-level cache; [baseConfig], [home] and
    [configCenterFactory] are what [config.GetBaseConfig()], [file.Home()]
    and the store factory of the file backend answer; [constructions] logs
    the directory of every call made to the factory, and
    [shutdownCallbacks] the clients whose [Destroy] was registered with
    [extension.AddCustomShutdownCallback]. *)
Record Process (S : Type) : Type := {
  instanceMap : gmap string nat;
  heap : list (fileSystemServiceDiscovery S);
  baseConfig : gmap string ServiceDiscoveryConfig;
  home : result string;
  configCenterFactory : string → result S;
  constructions : list string;
  shutdownCallbacks : list nat
}.
Arguments instanceMap {S} _.
Arguments heap {S} _.
Arguments baseConfig {S} _.
Arguments home {S} _.
Arguments configCenterFactory {S} _.
Arguments constructions {S} _.
Arguments shutdownCallbacks {S} _.

Section Constructor.
Context `{JSON} {S : Type} `{FileSystemDynamicConfiguration S}.

(** [constant.FILE_KEY], the key of the file backend that a backend
    configuration's protocol must equal: a constant of package
    [common/constant], whose declaration is not part of the sources at
    hand. *)
Variable FILE_KEY : string.

(** The inner statement of the constructor's loop: a (do-nothing)
    [RegistryConfigurationListener] is attached to the store for the
    instance's id and group. *)
Definition attachListener (sd : fileSystemServiceDiscovery S)
    (i : ServiceInstance) : fileSystemServiceDiscovery S :=
  {| dynamicConfiguration :=
       config_center.AddListener (getServiceInstanceId i) (getServiceName i)
                                 sd.(dynamicConfiguration);
     rootPath := sd.(rootPath);
     fileMap := sd.(fileMap) |}.

(** The constructor's loop over the known services and their instances. *)
Definition attachListeners (sd : fileSystemServiceDiscovery S)
  : fileSystemServiceDiscovery S :=
  foldl (λ sd v, foldl attachListener sd (elems (GetInstances v sd)))
        sd (elements (GetServices sd)).

(** [newFileSystemServiceDiscovery], for calls made one at a time (taking
    and releasing [initLock] then changes nothing).  The result is the
    address of the client. *)
Definition newFileSystemServiceDiscovery (name : string) (w : Process S)
  : result nat * Process S :=
  match w.(instanceMap) !! name with
  | Some instance => (Ok instance, w)
  | None =>
      match w.(instanceMap) !! name with
      | Some instance => (Ok instance, w)
      | None =>
          match w.(baseConfig) !! name with
          | None =>
              (Err (errorString
                      "could not init the instance because the config is invalid"),
               w)
          | Some sdc =>
              if decide (sdc.(Protocol) ≠ FILE_KEY) then
                (Err (errorString
                        "could not init the instance because the config is invalid"),
                 w)
              else
                match w.(home) with
                | Err err => (Err (withStack err), w)
                | Ok rp =>
                    let p := path_Join [rp; ".dubbo"; "registry"] in
                    let called :=
                      {| instanceMap := w.(instanceMap);
                         heap := w.(heap);
                         baseConfig := w.(baseConfig);
                         home := w.(home);
                         configCenterFactory := w.(configCenterFactory);
                         constructions := w.(constructions) ++ [p];
                         shutdownCallbacks := w.(shutdownCallbacks) |} in
                    match w.(configCenterFactory) p with
                    | Err _ =>
                        (Err (errorString
                                ("could not find the config for name: " +:+ name)),
                         called)
                    | Ok c =>
                        let sd :=
                          {| dynamicConfiguration := c;
                             rootPath := p;
                             fileMap := ∅ |} in
                        let address := length w.(heap) in
                        (Ok address,
                         {| instanceMap := w.(instanceMap);
                            heap := w.(heap) ++ [attachListeners sd];
                            baseConfig := w.(baseConfig);
                            home := w.(home);
                            configCenterFactory := w.(configCenterFactory);
                            constructions := w.(constructions) ++ [p];
                            shutdownCallbacks :=
                              w.(shutdownCallbacks) ++ [address] |})
                    end
                end
          end
      end
  end.

End Constructor.

(** ** Calls on one client and the dispatcher beside it *)

(** The calls of the discovery contract that write, subscribe or dispatch. *)
Inductive Call : Type :=
| CallRegister (instance : ServiceInstance)
| CallUpdate (instance : ServiceInstance)
| CallUnregister (instance : ServiceInstance)
| CallAddListener (listener : ServiceInstancesChangedListener)
| CallDispatchEventByServiceName (serviceName : string).

Section Runtime.
Context `{JSON} {S : Type} `{FileSystemDynamicConfiguration S}.
Context {D : Type} `{EventDispatcher D}.

(** One call on a client [rt.1], next to the global dispatcher [rt.2]. *)
Definition exec (c : Call) (rt : fileSystemServiceDiscovery S * D)
  : option error * (fileSystemServiceDiscovery S * D) :=
  match c with
  | CallRegister i => let r := Register i rt.1 in (r.1, (r.2, rt.2))
  | CallUpdate i => let r := Update i rt.1 in (r.1, (r.2, rt.2))
  | CallUnregister i => let r := Unregister i rt.1 in (r.1, (r.2, rt.2))
  | CallAddListener l => let r := AddListener l rt.1 in (r.1, (r.2, rt.2))
  | CallDispatchEventByServiceName n =>
      let r := DispatchEventByServiceName n rt.1 rt.2 in (r.1, (rt.1, r.2))
  end.

(** A sequence of calls, from left to right. *)
Definition run (cs : list Call) (rt : fileSystemServiceDiscovery S * D)
  : fileSystemServiceDiscovery S * D :=
  foldl (λ rt c, (exec c rt).2) rt cs.

(** Whether a call is a dispatch call (the others register, update,
    unregister or subscribe). *)
Definition dispatches (c : Call) : bool :=
  match c with
  | CallDispatchEventByServiceName _ => true
  | _ => false
  end.

End Runtime.

(** ** A model of the file-system configuration store *)

(** Modelled from the spec: the file backend of the configuration store
    ([config_center/file], not part of the sources at hand).  One record per
    (group, key), kept under [<root>/<group>/<key>]; [fs_groups] are the
    group directories under the root; [fs_denied] are the paths on which the
    operating system refuses to read, write or delete; [fs_close_err] is
    what closing the store's watcher answers; [fs_listeners] are the
    (key, group) pairs a listener was attached to. *)
Record FileStore : Type := {
  fs_root : string;
  fs_groups : gset string;
  fs_files : gmap (string * string) string;
  fs_denied : gset string;
  fs_close_err : option error;
  fs_listeners : list (string * string)
}.

Definition fs_path (key group : string) (s : FileStore) : string :=
  path_Join [s.(fs_root); group; key].

Definition fs_with_files (s : FileStore) (groups : gset string)
    (files : gmap (string * string) string) : FileStore :=
  {| fs_root := s.(fs_root);
     fs_groups := groups;
     fs_files := files;
     fs_denied := s.(fs_denied);
     fs_close_err := s.(fs_close_err);
     fs_listeners := s.(fs_listeners) |}.

(** Writes or overwrites the record, creating the group directory. *)
Definition fs_PublishConfig (key group content : string) (s : FileStore)
  : option error * FileStore :=
  if decide (fs_path key group s ∈ s.(fs_denied)) then
    (Some (errorString "StoreIOError"), s)
  else
    (None, fs_with_files s (s.(fs_groups) ∪ {[ group ]})
                         (<[(group, key) := content]> s.(fs_files))).

(** Deletes the record; an absent record is not an error. *)
Definition fs_RemoveConfig (key group : string) (s : FileStore)
  : option error * FileStore :=
  if decide (fs_path key group s ∈ s.(fs_denied)) then
    (Some (errorString "StoreIOError"), s)
  else
    (None, fs_with_files s s.(fs_groups) (delete (group, key) s.(fs_files))).

(** The raw content, or a failure when the record is absent or unreadable. *)
Definition fs_GetProperties (key group : string) (s : FileStore)
  : result string :=
  match s.(fs_files) !! (group, key) with
  | None => Err (errorString "NotFoundError")
  | Some content =>
      if decide (fs_path key group s ∈ s.(fs_denied)) then
        Err (errorString "StoreIOError")
      else Ok content
  end.

(** The keys under a group; the empty set when the group does not exist. *)
Definition fs_GetConfigKeysByGroup (group : string) (s : FileStore)
  : result (gset string) :=
  Ok (set_map snd (filter (λ gk, gk.1 = group) (dom s.(fs_files)))).

Definition fs_AddListener (key group : string) (s : FileStore) : FileStore :=
  {| fs_root := s.(fs_root);
     fs_groups := s.(fs_groups);
     fs_files := s.(fs_files);
     fs_denied := s.(fs_denied);
     fs_close_err := s.(fs_close_err);
     fs_listeners := s.(fs_listeners) ++ [(key, group)] |}.

Definition fs_Close (s : FileStore) : option error * FileStore :=
  (s.(fs_close_err), s).

(** [os.Remove] of a path: the record kept under that path is deleted; a
    refused path or a path with no file is an error. *)
Definition fs_os_Remove (file : string) (s : FileStore)
  : option error * FileStore :=
  if decide (file ∈ s.(fs_denied)) then
    (Some (errorString "remove: permission denied"), s)
  else
    let kept := filter (λ kv, fs_path kv.1.2 kv.1.1 s ≠ file) s.(fs_files) in
    if decide (kept = s.(fs_files)) then
      (Some (errorString "remove: no such file or directory"), s)
    else (None, fs_with_files s s.(fs_groups) kept).

(** [ioutil.ReadDir] of the root: one directory per group. *)
Definition fs_ReadDir (dir : string) (s : FileStore) : list FileInfo :=
  if decide (dir = s.(fs_root)) then
    (λ g, {| Name := g; IsDir := true |}) <$> elements s.(fs_groups)
  else [].

Definition FileStore_configuration : FileSystemDynamicConfiguration FileStore :=
  {| PublishConfig := fs_PublishConfig;
     RemoveConfig := fs_RemoveConfig;
     GetProperties := fs_GetProperties;
     GetConfigKeysByGroup := fs_GetConfigKeysByGroup;
     config_center.AddListener := fs_AddListener;
     GetPath := fs_path;
     RootPath := fs_root;
     Close := fs_Close;
     os_Remove := fs_os_Remove;
     ioutil_ReadDir := fs_ReadDir |}.

(** A store with no record under [root]. *)
Definition emptyStore (root : string) : FileStore :=
  {| fs_root := root;
     fs_groups := ∅;
     fs_files := ∅;
     fs_denied := ∅;
     fs_close_err := None;
     fs_listeners := [] |}.

(** ** A model of the event dispatcher *)

(** Modelled from the spec: the process-wide dispatcher (package
    [common/extension] is not part of the sources at hand), which fans an
    event out to all its subscribers for the event's service name.
    [delivered] logs every callback invocation. *)
Record FanOut : Type := {
  subscribers : list ServiceInstancesChangedListener;
  delivered :
    list (ServiceInstancesChangedListener * ServiceInstancesChangedEvent)
}.

Definition FanOut_Dispatch (event : ServiceInstancesChangedEvent) (d : FanOut)
  : FanOut :=
  {| subscribers := d.(subscribers);
     delivered :=
       d.(delivered) ++
       ((λ l, (l, event)) <$>
          filter (λ l, l.(ListenerServiceName) = event.(EventServiceName))
                 d.(subscribers)) |}.

Definition FanOut_dispatcher : EventDispatcher FanOut :=
  {| Dispatch := FanOut_Dispatch |}.

(** The events delivered to a listener's callback so far. *)
Definition invocations (l : ServiceInstancesChangedListener) (d : FanOut)
  : list ServiceInstancesChangedEvent :=
  (filter (λ le, le.1 = l) d.(delivered)).*2.

(** ** A reference JSON codec for service instances *)

(** The codec below follows [encoding/json] on a service instance, as far
    as the discovery client can observe it.

    [refMarshal] writes one object with the members [Id], [ServiceName],
    [Host], [Port], [Healthy] and [Metadata], in that order and without
    white space; the metadata keys are sorted byte by byte.  A string is
    written as [encodeState.string] writes it with HTML escaping on: the
    quote and the backslash get a backslash; line feed, carriage return
    and tab are written [\n], [\r] and [\t]; the other bytes below 0x20
    and [<], [>], [&] are written [\u00XX] (Go 1.22 and later write
    [\b] and [\f] for 0x08 and 0x0C; the reader takes both forms);
    U+2028 and U+2029 are written [\u2028] and [\u2029]; every byte that
    does not start a valid UTF-8 sequence is written [\ufffd]; all else is
    copied.

    [refUnmarshal] reads any JSON text: white space between tokens, members
    in any order, members left out (the field keeps its zero value),
    members that name no field (skipped, whatever their value), names
    compared without regard to case, repeated members (the last one wins;
    metadata objects are merged), [null] (the field is left as it is; the
    metadata is emptied), every string escape with surrogate pairs, and raw
    bytes that are not valid UTF-8 (read as U+FFFD).  A text that is not
    JSON, and a value of the wrong kind for its field (a port with a
    fraction or outside 64 bits among them), is an error.

    The record of package [registry] has no [Enable] field here and does
    not tell a nil metadata map from an empty one: an empty metadata is
    written [{}].  The limit [encoding/json] puts on the nesting of a text
    is left out.  Error values carry one of two fixed messages; the client
    only tests them against nil. *)

Definition quoteChar : ascii := "034"%char.
Definition backslashChar : ascii := "092"%char.

(** The first [n] bytes of a string, and the string without them. *)
Fixpoint takeBytes (n : nat) (s : string) : string :=
  match n, s with
  | Datatypes.S n, String c rest => String c (takeBytes n rest)
  | _, _ => EmptyString
  end.

Fixpoint dropBytes (n : nat) (s : string) : string :=
  match n, s with
  | Datatypes.S n, String _ rest => dropBytes n rest
  | _, _ => s
  end.

(** *** UTF-8 ([unicode/utf8], [unicode/utf16]) *)

(** U+FFFD, the replacement character. *)
Definition RuneError : N := 65533.

(** Whether the byte [c] lies in [[lo, hi]]. *)
Definition inRange (lo hi : N) (c : ascii) : bool :=
  bool_decide (lo ≤ N_of_ascii c ≤ hi)%N.

(** The payload bits of a continuation byte. *)
Definition contBits (c : ascii) : N := (N_of_ascii c - 128)%N.

(** [utf8.DecodeRuneInString]: the first rune of [s] and its width in
    bytes; [(RuneError, 1)] when the bytes at the head of [s] are no valid
    encoding, [(RuneError, 0)] on the empty string. *)
Definition utf8_DecodeRuneInString (s : string) : N * nat :=
  match s with
  | EmptyString => (RuneError, 0%nat)
  | String c0 rest =>
      let b0 := N_of_ascii c0 in
      if decide (b0 < 128)%N then (b0, 1%nat)
      else if decide (194 ≤ b0 ≤ 223)%N then
        match rest with
        | String c1 _ =>
            if inRange 128 191 c1
            then (((b0 - 192) * 64 + contBits c1)%N, 2%nat)
            else (RuneError, 1%nat)
        | _ => (RuneError, 1%nat)
        end
      else if decide (224 ≤ b0 ≤ 239)%N then
        let lo := if decide (b0 = 224)%N then 160%N else 128%N in
        let hi := if decide (b0 = 237)%N then 159%N else 191%N in
        match rest with
        | String c1 (String c2 _) =>
            if inRange lo hi c1 && inRange 128 191 c2
            then (((b0 - 224) * 4096 + contBits c1 * 64 + contBits c2)%N,
                  3%nat)
            else (RuneError, 1%nat)
        | _ => (RuneError, 1%nat)
        end
      else if decide (240 ≤ b0 ≤ 244)%N then
        let lo := if decide (b0 = 240)%N then 144%N else 128%N in
        let hi := if decide (b0 = 244)%N then 143%N else 191%N in
        match rest with
        | String c1 (String c2 (String c3 _)) =>
            if inRange lo hi c1 && inRange 128 191 c2 && inRange 128 191 c3
            then (((b0 - 240) * 262144 + contBits c1 * 4096
                   + contBits c2 * 64 + contBits c3)%N, 4%nat)
            else (RuneError, 1%nat)
        | _ => (RuneError, 1%nat)
        end
      else (RuneError, 1%nat)
  end.

(** A continuation byte carrying the six bits of [n / d]. *)
Definition contByte (n d : N) : ascii := ascii_of_N (128 + (n / d) mod 64).

(** [utf8.EncodeRune]: the UTF-8 bytes of a rune; a surrogate and a rune
    beyond U+10FFFF are written as U+FFFD. *)
Definition utf8_EncodeRune (r : N) : string :=
  let r := if decide (55296 ≤ r ≤ 57343 ∨ 1114111 < r)%N then RuneError
           else r in
  if decide (r < 128)%N then String (ascii_of_N r) ""
  else if decide (r < 2048)%N then
    String (ascii_of_N (192 + r / 64)) (String (contByte r 1) "")
  else if decide (r < 65536)%N then
    String (ascii_of_N (224 + r / 4096))
      (String (contByte r 64) (String (contByte r 1) ""))
  else
    String (ascii_of_N (240 + r / 262144))
      (String (contByte r 4096)
         (String (contByte r 64) (String (contByte r 1) ""))).

(** [utf16.IsSurrogate] and [utf16.DecodeRune]. *)
Definition utf16_IsSurrogate (r : N) : bool :=
  bool_decide (55296 ≤ r < 57344)%N.

Definition utf16_DecodeRune (r1 r2 : N) : N :=
  if decide (55296 ≤ r1 < 56320 ∧ 56320 ≤ r2 < 57344)%N
  then ((r1 - 55296) * 1024 + (r2 - 56320) + 65536)%N
  else RuneError.

(** *** Writing *)

Definition hex : string := "0123456789abcdef".

Definition hexChar (n : N) : ascii :=
  default "0"%char (String.get (N.to_nat n) hex).

(** The bytes [encodeState.string] copies as they are ([htmlSafeSet]). *)
Definition htmlSafe (c : ascii) : bool :=
  inRange 32 127 c
  && bool_decide (c ∉ [quoteChar; backslashChar; "&"; "<"; ">"]%char).

(** The escape of a byte below 0x80 that is not copied. *)
Definition escapeByte (c : ascii) : string :=
  String backslashChar
    (if decide (c = backslashChar ∨ c = quoteChar) then String c ""
     else if decide (c = "010"%char) then "n"
     else if decide (c = "013"%char) then "r"
     else if decide (c = "009"%char) then "t"
     else "u00" +:+ String (hexChar (N_of_ascii c / 16))
                      (String (hexChar (N_of_ascii c mod 16)) "")).

(** The loop of [encodeState.string] over the bytes of [s]; one unit of
    [fuel] per turn. *)
Fixpoint jsonEscape (fuel : nat) (s : string) : string :=
  match fuel, s with
  | Datatypes.S fuel, String c rest =>
      if decide (N_of_ascii c < 128)%N then
        (if htmlSafe c then String c "" else escapeByte c)
        +:+ jsonEscape fuel rest
      else
        let rs := utf8_DecodeRuneInString s in
        if decide (rs = (RuneError, 1%nat)) then
          String backslashChar "ufffd" +:+ jsonEscape fuel rest
        else if decide (rs.1 = 8232 ∨ rs.1 = 8233)%N then
          String backslashChar "u202"
          +:+ String (hexChar (rs.1 mod 16)) ""
          +:+ jsonEscape fuel (dropBytes rs.2 s)
        else takeBytes rs.2 s +:+ jsonEscape fuel (dropBytes rs.2 s)
  | _, _ => ""
  end.

Definition jsonString (s : string) : string :=
  String quoteChar (jsonEscape (String.length s) s)
  +:+ String quoteChar EmptyString.

Definition jsonBool (b : bool) : string := if b then "true" else "false".

Definition jsonMember (name value : string) : string :=
  jsonString name +:+ ":" +:+ value.

Fixpoint jsonMembers (members : list (string * string)) : string :=
  match members with
  | [] => ""
  | [(k, v)] => jsonMember k (jsonString v)
  | (k, v) :: rest => jsonMember k (jsonString v) +:+ "," +:+ jsonMembers rest
  end.

(** The order in which the entries of a map are written: by key, byte by
    byte. *)
Definition keyOrder (a b : string * string) : Prop :=
  String.leb a.1 b.1 = true.

#[global] Instance keyOrder_dec : RelDecision keyOrder.
Proof. intros a b. unfold keyOrder. apply _. Defined.

Definition refMarshal (si : ServiceInstance) : result string :=
  Ok ("{" +:+ jsonMember "Id" (jsonString si.(Id))
      +:+ "," +:+ jsonMember "ServiceName" (jsonString si.(ServiceName))
      +:+ "," +:+ jsonMember "Host" (jsonString si.(Host))
      +:+ "," +:+ jsonMember "Port" (strconv_Itoa si.(Port))
      +:+ "," +:+ jsonMember "Healthy" (jsonBool si.(Healthy))
      +:+ "," +:+ jsonMember "Metadata"
                    ("{" +:+ jsonMembers
                               (merge_sort keyOrder
                                  (map_to_list si.(Metadata)))
                     +:+ "}")
      +:+ "}").

(** *** Reading *)

(** A JSON value; a number keeps its literal. *)
#[warnings="-register-all"]
Inductive jsonValue : Type :=
  | JNull
  | JBool (b : bool)
  | JNumber (literal : string)
  | JString (s : string)
  | JArray (items : list jsonValue)
  | JObject (members : list (string * jsonValue)).

(** [expect p s]: the rest of [s] after its prefix [p]. *)
Fixpoint expect (p s : string) : option string :=
  match p, s with
  | EmptyString, _ => Some s
  | String a p', String b s' => if decide (a = b) then expect p' s' else None
  | String _ _, EmptyString => None
  end.

(** Space, tab, carriage return and line feed. *)
Definition isSpace (c : ascii) : bool :=
  bool_decide (c ∈ [" "; "009"; "013"; "010"]%char).

Fixpoint skipSpace (s : string) : string :=
  match s with
  | String c rest => if isSpace c then skipSpace rest else s
  | EmptyString => s
  end.

Definition hexValue (c : ascii) : option N :=
  let b := N_of_ascii c in
  if decide (48 ≤ b ≤ 57)%N then Some (b - 48)%N
  else if decide (97 ≤ b ≤ 102)%N then Some (b - 87)%N
  else if decide (65 ≤ b ≤ 70)%N then Some (b - 55)%N
  else None.

(** [getu4]: the code unit of a [\uXXXX] escape at the head of [s]. *)
Definition getu4 (s : string) : option N :=
  match s with
  | String b (String u (String h1 (String h2 (String h3 (String h4 _))))) =>
      if decide (b = backslashChar ∧ u = "u"%char) then
        a ← hexValue h1; b ← hexValue h2; c ← hexValue h3; d ← hexValue h4;
        Some (((a * 16 + b) * 16 + c) * 16 + d)%N
      else None
  | _ => None
  end.

(** The byte a one-letter escape stands for. *)
Definition unescape (e : ascii) : option ascii :=
  if decide (e = quoteChar ∨ e = backslashChar ∨ e = "/"%char) then Some e
  else if decide (e = "b"%char) then Some "008"%char
  else if decide (e = "f"%char) then Some "012"%char
  else if decide (e = "n"%char) then Some "010"%char
  else if decide (e = "r"%char) then Some "013"%char
  else if decide (e = "t"%char) then Some "009"%char
  else None.

(** The rune of the [\uXXXX] escape [rr] followed by [after], and what is
    left of [after]: a high surrogate takes the low surrogate escaped
    behind it; a surrogate without its partner is U+FFFD. *)
Definition escapedRune (rr : N) (after : string) : N * string :=
  if utf16_IsSurrogate rr then
    match getu4 after with
    | Some rr1 =>
        if decide (utf16_DecodeRune rr rr1 = RuneError)
        then (RuneError, after)
        else (utf16_DecodeRune rr rr1, dropBytes 6 after)
    | None => (RuneError, after)
    end
  else (rr, after).

(** The string up to the closing quote, unquoted as [unquote] does it, and
    the rest of the input; one unit of [fuel] per turn. *)
Fixpoint readStringBody (fuel : nat) (s : string) : option (string * string) :=
  match fuel, s with
  | Datatypes.S fuel, String c rest =>
      if decide (c = quoteChar) then Some (EmptyString, rest)
      else if decide (c = backslashChar) then
        match rest with
        | EmptyString => None
        | String e rest' =>
            if decide (e = "u"%char) then
              rr ← getu4 s;
              let ra := escapedRune rr (dropBytes 6 s) in
              '(body, after) ← readStringBody fuel ra.2;
              Some (utf8_EncodeRune ra.1 +:+ body, after)
            else
              d ← unescape e;
              '(body, after) ← readStringBody fuel rest';
              Some (String d body, after)
        end
      else if decide (N_of_ascii c < 32)%N then None
      else if decide (N_of_ascii c < 128)%N then
        '(body, after) ← readStringBody fuel rest;
        Some (String c body, after)
      else
        let rs := utf8_DecodeRuneInString s in
        '(body, after) ← readStringBody fuel (dropBytes rs.2 s);
        Some (utf8_EncodeRune rs.1 +:+ body, after)
  | _, _ => None
  end.

Definition readString (s : string) : option (string * string) :=
  match s with
  | String c rest =>
      if decide (c = quoteChar) then readStringBody (String.length rest) rest
      else None
  | EmptyString => None
  end.

Definition isDigit (c : ascii) : bool := inRange 48 57 c.

(** The longest run of digits at the head of [s], and the rest. *)
Fixpoint readDigits (s : string) : string * string :=
  match s with
  | String c rest =>
      if isDigit c then
        let r := readDigits rest in (String c r.1, r.2)
      else (EmptyString, s)
  | EmptyString => (EmptyString, s)
  end.

(** A run of at least one digit. *)
Definition readDigits1 (s : string) : option (string * string) :=
  let r := readDigits s in
  if decide (r.1 = "") then None else Some r.

(** A number literal: a sign, an integer part without a leading zero, a
    fraction, an exponent. *)
Definition readNumber (s : string) : option (string * string) :=
  let '(sign, s) := match expect "-" s with
                    | Some rest => ("-", rest)
                    | None => ("", s)
                    end in
  '(int, s) ← readDigits1 s;
  if decide (String.length int ≠ 1%nat ∧ expect "0" int ≠ None) then None
  else
    '(frac, s) ← match expect "." s with
                 | Some rest => '(ds, s) ← readDigits1 rest;
                                Some ("." +:+ ds, s)
                 | None => Some ("", s)
                 end;
    '(exp, s) ← match s with
                | String e rest =>
                    if decide (e = "e"%char ∨ e = "E"%char) then
                      let '(sg, rest) :=
                        match rest with
                        | String g rest' =>
                            if decide (g = "+"%char ∨ g = "-"%char)
                            then (String g "", rest') else ("", rest)
                        | EmptyString => ("", rest)
                        end in
                      '(ds, s) ← readDigits1 rest;
                      Some (String e sg +:+ ds, s)
                    else Some ("", s)
                | EmptyString => Some ("", s)
                end;
    Some (sign +:+ int +:+ frac +:+ exp, s).

(** A value, the members of an object after its first white space and the
    items of an array; [fuel] bounds the nesting and the number of members
    and items, each of which takes at least one byte. *)
Fixpoint readValue (fuel : nat) (s : string) : option (jsonValue * string) :=
  match fuel with
  | O => None
  | Datatypes.S fuel =>
      match skipSpace s with
      | EmptyString => None
      | String c rest as s =>
          if decide (c = "{"%char) then
            match expect "}" (skipSpace rest) with
            | Some after => Some (JObject [], after)
            | None => '(ms, after) ← readMembers fuel (skipSpace rest);
                      Some (JObject ms, after)
            end
          else if decide (c = "["%char) then
            match expect "]" (skipSpace rest) with
            | Some after => Some (JArray [], after)
            | None => '(vs, after) ← readItems fuel rest;
                      Some (JArray vs, after)
            end
          else if decide (c = quoteChar) then
            '(str, after) ← readString s; Some (JString str, after)
          else if decide (c = "t"%char) then
            after ← expect "true" s; Some (JBool true, after)
          else if decide (c = "f"%char) then
            after ← expect "false" s; Some (JBool false, after)
          else if decide (c = "n"%char) then
            after ← expect "null" s; Some (JNull, after)
          else
            '(lit, after) ← readNumber s; Some (JNumber lit, after)
      end
  end
with readMembers (fuel : nat) (s : string)
  : option (list (string * jsonValue) * string) :=
  match fuel with
  | O => None
  | Datatypes.S fuel =>
      '(k, s) ← readString s;
      s ← expect ":" (skipSpace s);
      '(v, s) ← readValue fuel s;
      match expect "," (skipSpace s) with
      | Some s => '(ms, after) ← readMembers fuel (skipSpace s);
                  Some ((k, v) :: ms, after)
      | None => after ← expect "}" (skipSpace s); Some ([(k, v)], after)
      end
  end
with readItems (fuel : nat) (s : string)
  : option (list jsonValue * string) :=
  match fuel with
  | O => None
  | Datatypes.S fuel =>
      '(v, s) ← readValue fuel s;
      match expect "," (skipSpace s) with
      | Some s => '(vs, after) ← readItems fuel s; Some (v :: vs, after)
      | None => after ← expect "]" (skipSpace s); Some ([v], after)
      end
  end.

(** A whole text: one value, white space around it and nothing else. *)
Definition refParse (s : string) : option jsonValue :=
  '(v, after) ← readValue (Datatypes.S (String.length s)) s;
  if decide (skipSpace after = "") then Some v else None.

(** The name of a member as it is compared with the names of the fields:
    letters in upper case, and the two runes that fold to a letter, U+017F
    and U+212A, as [S] and [K]. *)
Fixpoint foldName (s : string) : string :=
  match s with
  | EmptyString => EmptyString
  | String c rest =>
      let tail := String (if inRange 97 122 c
                          then ascii_of_N (N_of_ascii c - 32) else c)
                         (foldName rest) in
      match rest with
      | String d rest' =>
          if decide (c = "197"%char ∧ d = "191"%char)
          then String "S" (foldName rest')
          else match rest' with
               | String e rest'' =>
                   if decide (c = "226"%char ∧ d = "132"%char
                              ∧ e = "170"%char)
                   then String "K" (foldName rest'')
                   else tail
               | EmptyString => tail
               end
      | EmptyString => tail
      end
  end.

Definition syntaxError : error :=
  errorString "invalid character in JSON input".

Definition typeError : error :=
  errorString "json: cannot unmarshal value into Go struct field".

(** A value stored into a field of each kind; [old] is what the field
    holds. *)
Definition storeString (v : jsonValue) (old : string) : result string :=
  match v with
  | JString s => Ok s
  | JNull => Ok old
  | _ => Err typeError
  end.

Definition storeBool (v : jsonValue) (old : bool) : result bool :=
  match v with
  | JBool b => Ok b
  | JNull => Ok old
  | _ => Err typeError
  end.

(** [strconv.ParseInt] in base 10 on a number literal: a literal with a
    fraction or an exponent is no integer. *)
Fixpoint parseDigits (acc : Z) (s : string) : option Z :=
  match s with
  | EmptyString => Some acc
  | String c rest =>
      if isDigit c
      then parseDigits (10 * acc + Z.of_N (N_of_ascii c) - 48) rest
      else None
  end.

Definition parseInt (literal : string) : option Z :=
  match expect "-" literal with
  | Some digits => n ← parseDigits 0 digits; Some (- n)
  | None => parseDigits 0 literal
  end.

Definition storeInt (v : jsonValue) (old : Z) : result Z :=
  match v with
  | JNumber literal =>
      match parseInt literal with
      | Some n =>
          if decide (- 2 ^ 63 ≤ n < 2 ^ 63) then Ok n else Err typeError
      | None => Err typeError
      end
  | JNull => Ok old
  | _ => Err typeError
  end.

(** An entry of a metadata object put into the map read so far; [null]
    stands for the empty string. *)
Definition storeEntry (acc : result (gmap string string))
    (kv : string * jsonValue) : result (gmap string string) :=
  match acc with
  | Err e => Err e
  | Ok m =>
      match kv.2 with
      | JString s => Ok (<[kv.1 := s]> m)
      | JNull => Ok (<[kv.1 := ""]> m)
      | _ => Err typeError
      end
  end.

Definition storeMap (v : jsonValue) (old : gmap string string)
  : result (gmap string string) :=
  match v with
  | JObject members => foldl storeEntry (Ok old) members
  | JNull => Ok ∅
  | _ => Err typeError
  end.

(** What [new(registry.DefaultServiceInstance)] points to. *)
Definition zeroInstance : ServiceInstance :=
  {| Id := ""; ServiceName := ""; Host := ""; Port := 0;
     Metadata := ∅; Healthy := false |}.

(** One member of the object stored into the instance read so far. *)
Definition storeMember (acc : result ServiceInstance)
    (kv : string * jsonValue) : result ServiceInstance :=
  match acc with
  | Err e => Err e
  | Ok si =>
      let name := foldName kv.1 in
      let put {A} (r : result A) (set : A → ServiceInstance) :=
        match r with Ok a => Ok (set a) | Err e => Err e end in
      if decide (name = "ID") then
        put (storeString kv.2 si.(Id))
            (λ a, {| Id := a; ServiceName := si.(ServiceName);
                     Host := si.(Host); Port := si.(Port);
                     Metadata := si.(Metadata); Healthy := si.(Healthy) |})
      else if decide (name = "SERVICENAME") then
        put (storeString kv.2 si.(ServiceName))
            (λ a, {| Id := si.(Id); ServiceName := a;
                     Host := si.(Host); Port := si.(Port);
                     Metadata := si.(Metadata); Healthy := si.(Healthy) |})
      else if decide (name = "HOST") then
        put (storeString kv.2 si.(Host))
            (λ a, {| Id := si.(Id); ServiceName := si.(ServiceName);
                     Host := a; Port := si.(Port);
                     Metadata := si.(Metadata); Healthy := si.(Healthy) |})
      else if decide (name = "PORT") then
        put (storeInt kv.2 si.(Port))
            (λ a, {| Id := si.(Id); ServiceName := si.(ServiceName);
                     Host := si.(Host); Port := a;
                     Metadata := si.(Metadata); Healthy := si.(Healthy) |})
      else if decide (name = "HEALTHY") then
        put (storeBool kv.2 si.(Healthy))
            (λ a, {| Id := si.(Id); ServiceName := si.(ServiceName);
                     Host := si.(Host); Port := si.(Port);
                     Metadata := si.(Metadata); Healthy := a |})
      else if decide (name = "METADATA") then
        put (storeMap kv.2 si.(Metadata))
            (λ a, {| Id := si.(Id); ServiceName := si.(ServiceName);
                     Host := si.(Host); Port := si.(Port);
                     Metadata := a; Healthy := si.(Healthy) |})
      else Ok si
  end.

(** A value stored into a fresh instance: an object member by member,
    [null] as nothing at all. *)
Definition decodeInstance (v : jsonValue) : result ServiceInstance :=
  match v with
  | JObject members => foldl storeMember (Ok zeroInstance) members
  | JNull => Ok zeroInstance
  | _ => Err typeError
  end.

Definition refUnmarshal (s : string) : result ServiceInstance :=
  match refParse s with
  | Some v => decodeInstance v
  | None => Err syntaxError
  end.

Definition refJSON : JSON :=
  {| json_Marshal := refMarshal; json_Unmarshal := refUnmarshal |}.

(** ** Vocabulary of the properties *)

Section Vocabulary.
Context `{JSON} {S : Type} `{FileSystemDynamicConfiguration S}.

(** The instance a key of a group stands for: the record is read and
    decoded; a failed read or a malformed record stands for nothing. *)
Definition validRecord (serviceName : string) (dc : S) (id : string)
  : option ServiceInstance :=
  match GetProperties id serviceName dc with
  | Err _ => None
  | Ok p =>
      match json_Unmarshal p with
      | Err _ => None
      | Ok dsi => Some dsi
      end
  end.

(** The JSON text of [x] decodes to [x] again. *)
Definition json_roundtrips (x : ServiceInstance) : Prop :=
  ∀ c, json_Marshal x = Ok c → json_Unmarshal c = Ok x.

End Vocabulary.

(** The invariant of the spec's configuration records: the key of a stored
    record is the id of the instance its content decodes to. *)
Definition keyed_by_id `{JSON} (s : FileStore) : Prop :=
  map_Forall
    (λ gk content,
       match json_Unmarshal content with
       | Ok y => getServiceInstanceId y = gk.2
       | Err _ => True
       end)
    s.(fs_files).

(** [utf8.ValidString]: whether a string is a sequence of valid UTF-8
    encodings; one unit of [fuel] per rune. *)
Fixpoint validString (fuel : nat) (s : string) : bool :=
  match s, fuel with
  | EmptyString, _ => true
  | _, O => false
  | _, Datatypes.S fuel =>
      let rs := utf8_DecodeRuneInString s in
      bool_decide (rs ≠ (RuneError, 1%nat))
      && validString fuel (dropBytes rs.2 s)
  end.

Definition utf8_ValidString (s : string) : bool :=
  validString (String.length s) s.

(** An instance whose strings are UTF-8 and whose port is a 64-bit
    integer. *)
Definition validInstance (x : ServiceInstance) : Prop :=
  utf8_ValidString x.(Id) = true
  ∧ utf8_ValidString x.(ServiceName) = true
  ∧ utf8_ValidString x.(Host) = true
  ∧ - 2 ^ 63 ≤ x.(Port) < 2 ^ 63
  ∧ map_Forall (λ k v, utf8_ValidString k = true ∧ utf8_ValidString v = true)
               x.(Metadata).

(** The instance with its key written into its id field. *)
Definition withDerivedId (x : ServiceInstance) : ServiceInstance :=
  {| Id := getServiceInstanceId x;
     ServiceName := x.(ServiceName);
     Host := x.(Host);
     Port := x.(Port);
     Metadata := x.(Metadata);
     Healthy := x.(Healthy) |}.

(** Whether a string holds a dot. *)
Fixpoint hasDot (s : string) : bool :=
  match s with
  | EmptyString => false
  | String c rest => if decide (c = "."%char) then true else hasDot rest
  end.

(** The instances a sequence of calls registers or updates. *)
Definition registered (cs : list Call) : list ServiceInstance :=
  omap (λ c, match c with
             | CallRegister i | CallUpdate i => Some i
             | _ => None
             end) cs.

(** ** Concrete instances, clients and processes *)

(** The instance of the spec's scenario: no id, host [h1], port 20880. *)
Definition greeter : ServiceInstance :=
  {| Id := ""; ServiceName := "Greeter"; Host := "h1"; Port := 20880;
     Metadata := {[ "zone" := "a" ]}; Healthy := true |}.

(** A second instance of the same service, with an id of its own. *)
Definition greeter2 : ServiceInstance :=
  {| Id := "node-2"; ServiceName := "Greeter"; Host := "h2"; Port := 20881;
     Metadata := ∅; Healthy := false |}.

(** [greeter] again, moved to another zone: same service name and id. *)
Definition greeterMoved : ServiceInstance :=
  {| Id := ""; ServiceName := "Greeter"; Host := "h1"; Port := 20880;
     Metadata := {[ "zone" := "b" ]}; Healthy := true |}.

(** The instance of the spec's example of the default id. *)
Definition exampleInstance : ServiceInstance :=
  {| Id := ""; ServiceName := "Echo"; Host := "10.0.0.1"; Port := 8080;
     Metadata := ∅; Healthy := true |}.

Definition registryRoot : string := "/home/dubbo/.dubbo/registry".

(** A freshly constructed client over an empty store. *)
Definition freshClient : fileSystemServiceDiscovery FileStore :=
  {| dynamicConfiguration := emptyStore registryRoot;
     rootPath := registryRoot;
     fileMap := ∅ |}.

(** The same client after [greeter] and [greeter2] were registered. *)
Definition busyClient : fileSystemServiceDiscovery FileStore :=
  Eval vm_compute in
    (@Register refJSON FileStore FileStore_configuration greeter2
       (@Register refJSON FileStore FileStore_configuration greeter
          freshClient).2).2.

(** A store whose watcher fails to close, and a client over it that tracks
    a file the operating system refuses to delete. *)
Definition closeError : error := errorString "watcher: close failed".

Definition stuckStore : FileStore :=
  {| fs_root := registryRoot;
     fs_groups := {[ "Greeter" ]};
     fs_files := {[ ("Greeter", "h1.20880") := "{}" ]};
     fs_denied := {[ "/home/dubbo/.dubbo/registry/Greeter/h1.20880" ]};
     fs_close_err := Some closeError;
     fs_listeners := [] |}.

Definition stuckClient : fileSystemServiceDiscovery FileStore :=
  {| dynamicConfiguration := stuckStore;
     rootPath := registryRoot;
     fileMap :=
       {[ "h1.20880" := "/home/dubbo/.dubbo/registry/Greeter/h1.20880" ]} |}.

(** A store with two valid records, one corrupted record and one record
    that cannot be read, all in group [Greeter]. *)
Definition damagedStore : FileStore :=
  {| fs_root := registryRoot;
     fs_groups := {[ "Greeter" ]};
     fs_files :=
       <[ ("Greeter", "broken") := "{not json" ]>
       (<[ ("Greeter", "locked") := "{}" ]>
        busyClient.(dynamicConfiguration).(fs_files));
     fs_denied := {[ "/home/dubbo/.dubbo/registry/Greeter/locked" ]};
     fs_close_err := None;
     fs_listeners := [] |}.

Definition damagedClient : fileSystemServiceDiscovery FileStore :=
  {| dynamicConfiguration := damagedStore;
     rootPath := registryRoot;
     fileMap := ∅ |}.

(** A process in which the backend [backendA] is configured for the file
    protocol, the home directory resolves and the factory answers with an
    empty store; nothing is cached yet. *)
Definition freshProcess : Process FileStore :=
  {| instanceMap := ∅;
     heap := [];
     baseConfig := {[ "backendA" := {| Protocol := "file" |} ]};
     home := Ok "/home/dubbo";
     configCenterFactory := λ dir, Ok (emptyStore dir);
     constructions := [];
     shutdownCallbacks := [] |}.

(** A subscriber to the changes of [Greeter], and a dispatcher that does
    not know it. *)
Definition greeterListener : ServiceInstancesChangedListener :=
  {| ListenerServiceName := "Greeter"; ListenerTag := 1 |}.

Definition idleDispatcher : FanOut := {| subscribers := []; delivered := [] |}.

(** A dispatcher that knows the subscriber and has delivered nothing yet. *)
Definition greeterDispatcher : FanOut :=
  {| subscribers := [greeterListener]; delivered := [] |}.

(** A metric configuration with the documented minimum of one second. *)
Definition oneSecondConfig : MetricConfig :=
  {| Manager := "";
     MaxSubCategoryCount := 0;
     GlobalInterval := Second;
     LevelInterval := Some {[ 1 := Second; 2 := 999999999 ]};
     MaxMetricCountPerRegistry := 0;
     MaxCompassErrorCodeCount := 0;
     MaxCompassAddonCount := 0 |}.

(** A metric configuration with a global interval of five seconds. *)
Definition fiveSecondConfig : MetricConfig :=
  {| Manager := "";
     MaxSubCategoryCount := 0;
     GlobalInterval := 5 * Second;
     LevelInterval := None;
     MaxMetricCountPerRegistry := 0;
     MaxCompassErrorCodeCount := 0;
     MaxCompassAddonCount := 0 |}.

(** [freshProcess] with a store factory that is down. *)
Definition factoryDownProcess : Process FileStore :=
  {| instanceMap := ∅;
     heap := [];
     baseConfig := {[ "backendA" := {| Protocol := "file" |} ]};
     home := Ok "/home/dubbo";
     configCenterFactory := λ dir, Err (errorString "factory: no such plugin");
     constructions := [];
     shutdownCallbacks := [] |}.

(** A metric configuration that names its manager. *)
Definition namedManagerConfig : MetricConfig :=
  {| Manager := "prometheus";
     MaxSubCategoryCount := 0;
     GlobalInterval := 0;
     LevelInterval := None;
     MaxMetricCountPerRegistry := 0;
     MaxCompassErrorCodeCount := 0;
     MaxCompassAddonCount := 0 |}.









(** A process whose home directory is the root directory, and one whose
    home directory is written with a slash at its end. *)
Definition rootHomeProcess : Process FileStore :=
  {| instanceMap := ∅;
     heap := [];
     baseConfig := {[ "backendA" := {| Protocol := "file" |} ]};
     home := Ok "/";
     configCenterFactory := λ dir, Ok (emptyStore dir);
     constructions := [];
     shutdownCallbacks := [] |}.

Definition slashHomeProcess : Process FileStore :=
  {| instanceMap := ∅;
     heap := [];
     baseConfig := {[ "backendA" := {| Protocol := "file" |} ]};
     home := Ok "/home/dubbo/";
     configCenterFactory := λ dir, Ok (emptyStore dir);
     constructions := [];
     shutdownCallbacks := [] |}.

(** [rootHomeProcess] with a store factory that is down for the directory
    [/.dubbo/registry], and for no other. *)
Definition rootHomeDownProcess : Process FileStore :=
  {| instanceMap := ∅;
     heap := [];
     baseConfig := {[ "backendA" := {| Protocol := "file" |} ]};
     home := Ok "/";
     configCenterFactory :=
       λ dir, if decide (dir = "/.dubbo/registry")
              then Err (errorString "factory: no such plugin")
              else Ok (emptyStore dir);
     constructions := [];
     shutdownCallbacks := [] |}.

(** * Properties *)

(** ** The metric configuration *)

(** C10: [GetGlobalInterval] returns the configured global interval only
    when it is strictly greater than one second; for every configured value
    of at most one second (one second itself included) it returns the
    default of sixty seconds; and [GetLevelInterval] falls back to
    [GetGlobalInterval] whenever the level map is nil, has no entry for the
    level, or has an entry below one second, while an entry of at least one
    second is returned as it is. *)
Theorem GetGlobalInterval_fallback (mc : MetricConfig) (metricLevel : Z) :
  (Second < mc.(GlobalInterval) → GetGlobalInterval mc = mc.(GlobalInterval))
  ∧ (mc.(GlobalInterval) ≤ Second → GetGlobalInterval mc = defaultGlobalInterval)
  ∧ (GetGlobalInterval mc = mc.(GlobalInterval) → Second < mc.(GlobalInterval))
  ∧ defaultGlobalInterval = 60 * Second
  ∧ (mc.(GlobalInterval) = Second → GetGlobalInterval mc = 60 * Second)
  ∧ (mc.(LevelInterval) = None →
     GetLevelInterval mc metricLevel = GetGlobalInterval mc)
  ∧ (∀ levels, mc.(LevelInterval) = Some levels →
       levels !! metricLevel = None →
       GetLevelInterval mc metricLevel = GetGlobalInterval mc)
  ∧ (∀ levels r, mc.(LevelInterval) = Some levels →
       levels !! metricLevel = Some r → r < Second →
       GetLevelInterval mc metricLevel = GetGlobalInterval mc)
  ∧ (∀ levels r, mc.(LevelInterval) = Some levels →
       levels !! metricLevel = Some r → Second ≤ r →
       GetLevelInterval mc metricLevel = r).
Proof.
  unfold GetLevelInterval, GetGlobalInterval, defaultGlobalInterval, Second.
  repeat split.
  - intros Hgt. destruct (Z.leb_spec (GlobalInterval mc) 1000000000); [lia | done].
  - intros Hle. destruct (Z.leb_spec (GlobalInterval mc) 1000000000); [done | lia].
  - destruct (Z.leb_spec (GlobalInterval mc) 1000000000); lia.
  - intros ->. done.
  - intros ->. done.
  - intros levels -> ->. done.
  - intros levels r -> -> Hlt. destruct (Z.leb_spec 1000000000 r); [lia | done].
  - intros levels r -> -> Hge. destruct (Z.leb_spec 1000000000 r); [done | lia].
Qed.

Lemma GetGlobalInterval_fallback_witness :
  GetGlobalInterval oneSecondConfig = 60 * Second
  ∧ GetLevelInterval oneSecondConfig 2 = 60 * Second
  ∧ GetLevelInterval oneSecondConfig 1 = Second
  ∧ GetLevelInterval oneSecondConfig 3 = 60 * Second
  ∧ GetGlobalInterval fiveSecondConfig = 5 * Second
  ∧ GetLevelInterval fiveSecondConfig 1 = 5 * Second.
Proof.
  destruct (GetGlobalInterval_fallback oneSecondConfig 1)
    as (_ & _ & _ & _ & Hone & _ & _ & _ & Hkeep).
  destruct (GetGlobalInterval_fallback oneSecondConfig 2)
    as (_ & _ & _ & _ & _ & _ & _ & Hlow & _).
  destruct (GetGlobalInterval_fallback oneSecondConfig 3)
    as (_ & _ & _ & _ & _ & _ & Hnone & _ & _).
  destruct (GetGlobalInterval_fallback fiveSecondConfig 1)
    as (Hgt & _ & _ & _ & _ & Hnil & _ & _ & _).
  split; [apply Hone; reflexivity |].
  split.
  { rewrite (Hlow {[ 1 := Second; 2 := 999999999 ]} 999999999);
      [apply Hone | | |]; reflexivity. }
  split.
  { apply (Hkeep {[ 1 := Second; 2 := 999999999 ]}); [reflexivity .. |].
    unfold Second; lia. }
  split.
  { rewrite (Hnone {[ 1 := Second; 2 := 999999999 ]});
      [apply Hone | |]; reflexivity. }
  split; [apply Hgt; reflexivity |].
  rewrite Hnil; [apply Hgt |]; reflexivity.
Defined.

(** X1: whatever is configured, the global interval answered is longer than
    one second and the interval answered for a level is at least one
    second. *)
Theorem intervals_at_least_one_second (mc : MetricConfig) (metricLevel : Z) :
  Second < GetGlobalInterval mc ∧ Second ≤ GetLevelInterval mc metricLevel.
Proof.
  assert (Second < GetGlobalInterval mc) as Hglobal.
  { unfold GetGlobalInterval, defaultGlobalInterval, Second.
    destruct (Z.leb_spec (GlobalInterval mc) 1000000000); lia. }
  split; [done|]. unfold GetLevelInterval.
  destruct (LevelInterval mc) as [levels|]; [|lia].
  destruct (levels !! metricLevel) as [r|]; [|lia].
  destruct (Z.leb_spec Second r); lia.
Qed.

(** X2: every count accessor answers a positive count: the configured one when
    it is positive, and its default otherwise. *)
Theorem metric_counts_positive (mc : MetricConfig) :
  0 < GetMaxSubCategoryCount mc
  ∧ 0 < GetMaxMetricCountPerRegistry mc
  ∧ 0 < GetMaxCompassErrorCodeCount mc
  ∧ 0 < GetMaxCompassAddonCount mc
  ∧ GetMaxSubCategoryCount mc
    = (if decide (0 < mc.(MaxSubCategoryCount)) then mc.(MaxSubCategoryCount)
       else 20)
  ∧ GetMaxMetricCountPerRegistry mc
    = (if decide (0 < mc.(MaxMetricCountPerRegistry))
       then mc.(MaxMetricCountPerRegistry) else 5000)
  ∧ GetMaxCompassErrorCodeCount mc
    = (if decide (0 < mc.(MaxCompassErrorCodeCount))
       then mc.(MaxCompassErrorCodeCount) else 100)
  ∧ GetMaxCompassAddonCount mc
    = (if decide (0 < mc.(MaxCompassAddonCount))
       then mc.(MaxCompassAddonCount) else 20).
Proof.
  unfold GetMaxSubCategoryCount, GetMaxMetricCountPerRegistry,
    GetMaxCompassErrorCodeCount, GetMaxCompassAddonCount,
    defaultMaxSubCategoryCount, defaultMaxMetricCountPerRegistry,
    defaultMaxCompassErrorCodeCount, defaultMaxCompassAddonCount.
  repeat split;
    repeat match goal with
           | |- context [?a <=? ?b] => destruct (Z.leb_spec a b)
           | |- context [decide ?P] => destruct (decide P)
           end; lia.
Qed.

(** ** The client, over any store and any JSON codec *)

Section ClientFacts.
Context `{JSON} {S : Type} `{FileSystemDynamicConfiguration S}.
Implicit Types (fssd : fileSystemServiceDiscovery S) (x : ServiceInstance).

Lemma elems_append {A : Type} (s : slice A) (a : A) :
  elems (append s a) = elems s ++ [a].
Proof. destruct s; reflexivity. Qed.

Lemma is_nil_append {A : Type} (s : slice A) (a : A) :
  is_nil (append s a) = false.
Proof. destruct s; reflexivity. Qed.

Lemma collectInstance_elems serviceName (dc : S) si id :
  elems (collectInstance serviceName dc si id)
  = elems si ++ option_list (validRecord serviceName dc id).
Proof.
  unfold collectInstance, validRecord.
  destruct (GetProperties id serviceName dc) as [p|]; simpl.
  - destruct (json_Unmarshal p); simpl.
    + apply elems_append.
    + by rewrite app_nil_r.
  - by rewrite app_nil_r.
Qed.

Lemma collectInstance_not_nil serviceName (dc : S) si id :
  is_nil si = false → is_nil (collectInstance serviceName dc si id) = false.
Proof.
  intros Hsi. unfold collectInstance.
  destruct (GetProperties id serviceName dc) as [p|]; [|done].
  destruct (json_Unmarshal p); [apply is_nil_append | done].
Qed.

(** The loop of [GetInstances] collects exactly the valid records, in the
    order of the keys. *)
Lemma collect_elems serviceName (dc : S) (keys : list string) si :
  elems (foldl (collectInstance serviceName dc) si keys)
  = elems si ++ omap (validRecord serviceName dc) keys.
Proof.
  revert si. induction keys as [|id keys IH]; intros si; simpl.
  - by rewrite app_nil_r.
  - rewrite IH, collectInstance_elems, <- app_assoc. f_equal.
    by destruct (validRecord serviceName dc id).
Qed.

Lemma collect_not_nil serviceName (dc : S) (keys : list string) si :
  is_nil si = false →
  is_nil (foldl (collectInstance serviceName dc) si keys) = false.
Proof.
  revert si. induction keys as [|id keys IH]; intros si Hsi; simpl; [done|].
  by apply IH, collectInstance_not_nil.
Qed.

Lemma GetInstances_elems serviceName fssd keys :
  GetConfigKeysByGroup serviceName fssd.(dynamicConfiguration) = Ok keys →
  elems (GetInstances serviceName fssd)
  = omap (validRecord serviceName fssd.(dynamicConfiguration)) (elements keys).
Proof. intros Hkeys. unfold GetInstances. rewrite Hkeys. apply collect_elems. Qed.

Lemma GetInstances_elem_of serviceName fssd keys y :
  GetConfigKeysByGroup serviceName fssd.(dynamicConfiguration) = Ok keys →
  y ∈ elems (GetInstances serviceName fssd)
  ↔ ∃ id, id ∈ keys
          ∧ validRecord serviceName fssd.(dynamicConfiguration) id = Some y.
Proof.
  intros Hkeys. rewrite (GetInstances_elems _ _ _ Hkeys), list_elem_of_omap.
  setoid_rewrite elem_of_elements. done.
Qed.

(** C7: [GetInstances] never returns the nil slice; when listing the keys
    of the group fails, or the group has no key (what a store answers for a
    group that does not exist), it returns the empty slice; otherwise it
    returns, in the order of the keys, exactly the records that could be
    read and decoded: a record whose read fails or whose content is not
    valid JSON is skipped, and every other record is returned. *)
Theorem GetInstances_skips_bad_records (serviceName : string) fssd :
  let dc := fssd.(dynamicConfiguration) in
  is_nil (GetInstances serviceName fssd) = false
  ∧ (∀ err, GetConfigKeysByGroup serviceName dc = Err err →
       GetInstances serviceName fssd = make_slice)
  ∧ (GetConfigKeysByGroup serviceName dc = Ok ∅ →
       GetInstances serviceName fssd = make_slice)
  ∧ (∀ keys, GetConfigKeysByGroup serviceName dc = Ok keys →
       elems (GetInstances serviceName fssd)
       = omap (validRecord serviceName dc) (elements keys))
  ∧ (∀ keys id p y, GetConfigKeysByGroup serviceName dc = Ok keys →
       id ∈ keys → GetProperties id serviceName dc = Ok p →
       json_Unmarshal p = Ok y →
       y ∈ elems (GetInstances serviceName fssd))
  ∧ (∀ keys y, GetConfigKeysByGroup serviceName dc = Ok keys →
       y ∈ elems (GetInstances serviceName fssd) →
       ∃ id p, id ∈ keys ∧ GetProperties id serviceName dc = Ok p
               ∧ json_Unmarshal p = Ok y)
  ∧ (∀ keys, GetConfigKeysByGroup serviceName dc = Ok keys →
       length (elems (GetInstances serviceName fssd))
       = length (filter (λ id, is_Some (validRecord serviceName dc id))
                        (elements keys))).
Proof.
  intros dc. subst dc. repeat split.
  - unfold GetInstances.
    destruct (GetConfigKeysByGroup serviceName _); [|done].
    by apply collect_not_nil.
  - intros err Herr. unfold GetInstances. by rewrite Herr.
  - intros Hempty. unfold GetInstances. rewrite Hempty.
    by rewrite elements_empty.
  - intros keys. apply GetInstances_elems.
  - intros keys id p y Hkeys Hid Hp Hy.
    apply (GetInstances_elem_of _ _ _ _ Hkeys). exists id. split; [done|].
    unfold validRecord. by rewrite Hp, Hy.
  - intros keys y Hkeys Hin.
    apply (GetInstances_elem_of _ _ _ _ Hkeys) in Hin as (id & Hid & Hvalid).
    unfold validRecord in Hvalid.
    destruct (GetProperties id serviceName _) as [p|] eqn:Hp; [|done].
    destruct (json_Unmarshal p) as [dsi|] eqn:Hdsi; [|done].
    exists id, p. by simplify_eq.
  - intros keys Hkeys. rewrite (GetInstances_elems _ _ _ Hkeys).
    induction (elements keys) as [|id l IH]; [done|]. simpl.
    rewrite filter_cons.
    destruct (validRecord serviceName _ id) eqn:Hv; simpl.
    + by f_equal.
    + done.
Qed.

Lemma Register_success x fssd fssd' :
  Register x fssd = (None, fssd') →
  ∃ c, getContent x = Ok c
       ∧ PublishConfig (getServiceInstanceId x) (getServiceName x) c
                       fssd.(dynamicConfiguration)
         = (None, fssd'.(dynamicConfiguration))
       ∧ fssd'.(rootPath) = fssd.(rootPath)
       ∧ fssd'.(fileMap)
         = <[getServiceInstanceId x :=
               GetPath (getServiceInstanceId x) (getServiceName x)
                       fssd'.(dynamicConfiguration)]> fssd.(fileMap).
Proof.
  unfold Register. intros Hreg.
  destruct (getContent x) as [c|]; [|done]. exists c.
  destruct (PublishConfig _ _ c _) as [[err|] dc]; simplify_eq; done.
Qed.

Lemma Unregister_success x fssd fssd' :
  Unregister x fssd = (None, fssd') →
  RemoveConfig (getServiceInstanceId x) (getServiceName x)
               fssd.(dynamicConfiguration)
  = (None, fssd'.(dynamicConfiguration))
  ∧ fssd'.(rootPath) = fssd.(rootPath)
  ∧ fssd'.(fileMap) = delete x.(Id) fssd.(fileMap).
Proof.
  unfold Unregister. intros Hun.
  destruct (RemoveConfig _ _ _) as [[err|] dc]; simplify_eq; done.
Qed.

Lemma getContent_Marshal x c : getContent x = Ok c ↔ json_Marshal x = Ok c.
Proof. unfold getContent. destruct (json_Marshal x); naive_solver. Qed.

(** C9: [Update] is [Register]: on every client and every instance the two
    return the same error and leave the same client behind.  In particular
    a successful [Update] publishes, under the instance's key and service
    name, the complete JSON text of the instance it was given (nothing of
    the earlier record is read or merged), and tracks the file like
    [Register]; a failed one fails with the error of [Register]. *)
Theorem Update_is_Register x fssd :
  Update x fssd = Register x fssd
  ∧ (∀ fssd', Update x fssd = (None, fssd') →
       ∃ c, json_Marshal x = Ok c
            ∧ PublishConfig (getServiceInstanceId x) x.(ServiceName) c
                            fssd.(dynamicConfiguration)
              = (None, fssd'.(dynamicConfiguration))
            ∧ fssd'.(fileMap) !! getServiceInstanceId x
              = Some (GetPath (getServiceInstanceId x) x.(ServiceName)
                              fssd'.(dynamicConfiguration)))
  ∧ (∀ err, (Update x fssd).1 = Some err → (Register x fssd).1 = Some err).
Proof.
  split; [reflexivity|]. split; [|done].
  intros fssd' Hup. unfold Update in Hup.
  apply Register_success in Hup as (c & Hc & Hpub & _ & Hmap).
  exists c. split; [by apply getContent_Marshal|]. split; [done|].
  rewrite Hmap. apply lookup_insert_eq.
Qed.

(** C8: an instance with an empty id is keyed by its host, a dot and the
    decimal rendering of its port, an instance with an id by that id; with
    empty id, host 10.0.0.1 and port 8080 the key is 10.0.0.1.8080; and this
    key (with the service name as group) is the one a successful [Register]
    publishes the record under and a successful [Unregister] removes. *)
Theorem getServiceInstanceId_key x fssd :
  (x.(Id) = "" →
   getServiceInstanceId x = x.(Host) +:+ "." +:+ strconv_Itoa x.(Port))
  ∧ (x.(Id) ≠ "" → getServiceInstanceId x = x.(Id))
  ∧ (x.(Id) = "" → x.(Host) = "10.0.0.1" → x.(Port) = 8080 →
     getServiceInstanceId x = "10.0.0.1.8080")
  ∧ (∀ fssd', Register x fssd = (None, fssd') →
       ∃ c, json_Marshal x = Ok c
            ∧ PublishConfig (getServiceInstanceId x) x.(ServiceName) c
                            fssd.(dynamicConfiguration)
              = (None, fssd'.(dynamicConfiguration)))
  ∧ (∀ fssd', Unregister x fssd = (None, fssd') →
       RemoveConfig (getServiceInstanceId x) x.(ServiceName)
                    fssd.(dynamicConfiguration)
       = (None, fssd'.(dynamicConfiguration))).
Proof.
  repeat split.
  - intros Hid. unfold getServiceInstanceId. by rewrite decide_True.
  - intros Hid. unfold getServiceInstanceId. by rewrite decide_False.
  - intros Hid Hhost Hport. unfold getServiceInstanceId.
    rewrite decide_True by done. rewrite Hhost, Hport. reflexivity.
  - intros fssd' Hreg. apply Register_success in Hreg as (c & Hc & Hpub & _).
    exists c. split; [by apply getContent_Marshal | done].
  - intros fssd' Hun. by apply Unregister_success in Hun as (Hrm & _).
Qed.

(** The entry [Unregister] deletes is the one under the id field: for an
    instance without an id, whose file is tracked under the derived id, the
    tracking map stays as it is. *)
Lemma Unregister_without_id_keeps_fileMap x fssd :
  x.(Id) = "" → fssd.(fileMap) !! "" = None →
  (Unregister x fssd).2.(fileMap) = fssd.(fileMap).
Proof.
  intros Hid Hnone. unfold Unregister.
  destruct (RemoveConfig _ _ _) as [[err|] dc]; simpl; [done|].
  rewrite Hid. by apply delete_id.
Qed.

(** X3: a [Register] that fails tracks no file: the tracking map is as before,
    and the error is the codec's own or the store's under [WithStack]. *)
Theorem Register_failure_keeps_fileMap x fssd err :
  (Register x fssd).1 = Some err →
  (Register x fssd).2.(fileMap) = fssd.(fileMap)
  ∧ (json_Marshal x = Err err
     ∨ ∃ c cause, json_Marshal x = Ok c
         ∧ (PublishConfig (getServiceInstanceId x) (getServiceName x) c
                          fssd.(dynamicConfiguration)).1 = Some cause
         ∧ err = withStack cause).
Proof.
  unfold Register, getContent. cbv zeta.
  destruct (json_Marshal x) as [c|e].
  - destruct (PublishConfig _ _ c _) as [[cause|] dc] eqn:Hpub; simpl; [|done].
    intros [= <-]. split; [done|]. right. exists c, cause. by rewrite Hpub.
  - simpl. intros [= <-]. split; [done|]. by left.
Qed.

(** X4: [GetServices] answers exactly the names of the directories that
    [ioutil.ReadDir] lists under the store's root. *)
Theorem GetServices_directories fssd (name : string) :
  name ∈ GetServices fssd
  ↔ ∃ file,
      file ∈ ioutil_ReadDir (RootPath fssd.(dynamicConfiguration))
                            fssd.(dynamicConfiguration)
      ∧ file.(IsDir) = true ∧ file.(Name) = name.
Proof.
  unfold GetServices.
  generalize (ioutil_ReadDir (RootPath fssd.(dynamicConfiguration))
                             fssd.(dynamicConfiguration)).
  intros files.
  enough (∀ r : gset string,
            name ∈ foldl (λ (r : gset string) file,
                            if file.(IsDir) then r ∪ {[ file.(Name) ]} else r)
                         r files
            ↔ name ∈ r ∨ ∃ file, file ∈ files ∧ file.(IsDir) = true
                                  ∧ file.(Name) = name) as Hgen.
  { rewrite Hgen. split; [|by right].
    intros [Hr|Hfile]; [|done]. by apply not_elem_of_empty in Hr. }
  induction files as [|file files IH]; intros r; simpl.
  - split; [by left|]. intros [?|(file & Hin & _)]; [done|].
    by apply elem_of_nil in Hin.
  - rewrite IH. split.
    + intros [Hr|(f & Hin & Hdir & Hname)].
      * destruct (IsDir file) eqn:Hdir; [|by left].
        apply elem_of_union in Hr as [Hr|Hr]; [by left|].
        apply elem_of_singleton in Hr. right. exists file.
        split; [apply list_elem_of_here|done].
      * right. exists f. split; [by apply list_elem_of_further|done].
    + intros [Hr|(f & Hin & Hdir & Hname)].
      * left. destruct (IsDir file); [|done]. apply elem_of_union. by left.
      * apply elem_of_cons in Hin as [->|Hin].
        -- left. rewrite Hdir. apply elem_of_union. right.
           by apply elem_of_singleton.
        -- right. by exists f.
Qed.

(** [Destroy] answers [nil], whatever closing the store and removing the
    tracked files answer. *)
Lemma Destroy_returns_nil fssd : (Destroy fssd).1 = None.
Proof. reflexivity. Qed.

End ClientFacts.

(** ** The client over the model of the file store *)

Section FileStoreFacts.
Context `{JSON}.
#[local] Existing Instance FileStore_configuration.
Implicit Types (fssd : fileSystemServiceDiscovery FileStore)
  (x : ServiceInstance) (s : FileStore).

Lemma fs_keys_elem_of s (group key : string) :
  fs_GetConfigKeysByGroup group s
  = Ok (set_map snd (filter (λ gk, gk.1 = group) (dom s.(fs_files))))
  ∧ (key ∈ (set_map snd (filter (λ gk : string * string, gk.1 = group)
                                (dom s.(fs_files))) : gset string)
     ↔ is_Some (s.(fs_files) !! (group, key))).
Proof.
  split; [reflexivity|].
  rewrite elem_of_map. split.
  - intros ([g k] & -> & Hin). apply elem_of_filter in Hin as [Hg Hin].
    simpl in Hg. subst g. by apply elem_of_dom.
  - intros Hsome. exists (group, key). split; [done|].
    apply elem_of_filter. split; [done|]. by apply elem_of_dom.
Qed.

Lemma fs_PublishConfig_success key group content s s' :
  fs_PublishConfig key group content s = (None, s') →
  (fs_path key group s ∉ fs_denied s)
  ∧ s' = fs_with_files s (s.(fs_groups) ∪ {[ group ]})
                       (<[(group, key) := content]> s.(fs_files)).
Proof.
  unfold fs_PublishConfig. case_decide as Hpath; intros Hpub; [done|].
  by injection Hpub as <-.
Qed.


(** A valid record of the model: a stored, readable content that decodes. *)
Lemma fs_validRecord s (group key : string) y :
  validRecord group s key = Some y
  ↔ ∃ content, s.(fs_files) !! (group, key) = Some content
               ∧ (fs_path key group s ∉ fs_denied s)
               ∧ json_Unmarshal content = Ok y.
Proof.
  unfold validRecord. simpl. unfold fs_GetProperties.
  destruct (s.(fs_files) !! (group, key)) as [content|].
  - case_decide as Hpath.
    + split; [done|]. by intros (? & ? & ? & ?).
    + destruct (json_Unmarshal content) as [dsi|] eqn:Hdec.
      * split.
        -- intros [= ->]. by exists content.
        -- intros (c & [= <-] & _ & Hy). congruence.
      * split; [done|]. intros (c & [= <-] & _ & Hy). congruence.
  - split; [done|]. by intros (? & ? & _).
Qed.


(** *** The invariant of the stored records *)

Lemma keyed_by_id_empty (root : string) : keyed_by_id (emptyStore root).
Proof. unfold keyed_by_id. simpl. apply map_Forall_empty. Qed.

Lemma Register_keyed_by_id x fssd :
  json_roundtrips x →
  keyed_by_id fssd.(dynamicConfiguration) →
  keyed_by_id (Register x fssd).2.(dynamicConfiguration).
Proof.
  intros Hround Hinv. unfold Register.
  destruct (getContent x) as [c|] eqn:Hc; [|done].
  simpl. unfold fs_PublishConfig. case_decide; [done|]. simpl.
  unfold keyed_by_id. simpl. apply map_Forall_insert_2; [|done].
  apply getContent_Marshal in Hc. by rewrite (Hround c Hc).
Qed.

Lemma Unregister_keyed_by_id x fssd :
  keyed_by_id fssd.(dynamicConfiguration) →
  keyed_by_id (Unregister x fssd).2.(dynamicConfiguration).
Proof.
  intros Hinv. unfold Unregister. simpl. unfold fs_RemoveConfig.
  case_decide; [done|]. simpl. unfold keyed_by_id. simpl.
  by apply map_Forall_delete.
Qed.

(** *** Register, then query *)


(** *** Unregister, then query *)


(** *** Registering twice *)

Lemma filter_omap_unique {A B : Type} (f : A → option B) (P : B → Prop)
    `{!∀ b, Decision (P b)} (l : list A) (a : A) (b : B) :
  NoDup l → a ∈ l → f a = Some b → P b →
  (∀ a' b', a' ∈ l → f a' = Some b' → P b' → a' = a) →
  filter P (omap f l) = [b].
Proof.
  intros Hnodup Hin Hfa HP Huniq.
  induction l as [|a0 l IH]; [by apply elem_of_nil in Hin|].
  apply NoDup_cons in Hnodup as [Hnotin Hnodup].
  apply elem_of_cons in Hin as [<-|Hin].
  - simpl. rewrite Hfa. rewrite filter_cons_True by done. f_equal.
    clear IH. induction l as [|a1 l IH]; [done|]. simpl.
    apply not_elem_of_cons in Hnotin as [Hne Hnotin].
    apply NoDup_cons in Hnodup as [_ Hnodup].
    destruct (f a1) as [b1|] eqn:Hfa1.
    + rewrite filter_cons_False.
      * apply IH; [done..|]. intros a' b' Ha'. apply Huniq.
        apply elem_of_cons in Ha' as [->|Ha']; [apply list_elem_of_here|].
        by do 2 apply list_elem_of_further.
      * intros HP1. apply Hne. symmetry. apply (Huniq a1 b1); [|done..].
        apply list_elem_of_further, list_elem_of_here.
    + apply IH; [done..|]. intros a' b' Ha'. apply Huniq.
      apply elem_of_cons in Ha' as [->|Ha']; [apply list_elem_of_here|].
      by do 2 apply list_elem_of_further.
  - simpl. destruct (f a0) as [b0|] eqn:Hfa0.
    + rewrite filter_cons_False.
      * apply IH; [done..|]. intros a' b' Ha'. apply Huniq.
        by apply list_elem_of_further.
      * intros HP0. apply Hnotin.
        rewrite (Huniq a0 b0); [done|apply list_elem_of_here|done..].
    + apply IH; [done..|]. intros a' b' Ha'. apply Huniq.
      by apply list_elem_of_further.
Qed.

(** Registering twice under the same service name and id overwrites: on a
    store keyed by id, after the second successful [Register] the store
    holds the second payload under the key, and [GetInstances] lists
    exactly one instance with that id, the second one. *)
Theorem Register_twice_overwrites x x' fssd fssd1 fssd2 :
  keyed_by_id fssd.(dynamicConfiguration) →
  json_roundtrips x → json_roundtrips x' →
  x'.(ServiceName) = x.(ServiceName) →
  getServiceInstanceId x' = getServiceInstanceId x →
  Register x fssd = (None, fssd1) →
  Register x' fssd1 = (None, fssd2) →
  (∃ c', json_Marshal x' = Ok c'
         ∧ fssd2.(dynamicConfiguration).(fs_files)
             !! (x.(ServiceName), getServiceInstanceId x) = Some c')
  ∧ filter (λ y, getServiceInstanceId y = getServiceInstanceId x)
           (elems (GetInstances x.(ServiceName) fssd2))
    = [x'].
Proof.
  intros Hinv Hx Hx' Hsn Hid Hreg1 Hreg2.
  assert (keyed_by_id fssd2.(dynamicConfiguration)) as Hinv2.
  { pose proof (Register_keyed_by_id x fssd Hx Hinv) as H1.
    rewrite Hreg1 in H1. simpl in H1.
    pose proof (Register_keyed_by_id x' fssd1 Hx' H1) as H2.
    by rewrite Hreg2 in H2. }
  apply Register_success in Hreg2 as (c' & Hc' & Hpub & _).
  apply fs_PublishConfig_success in Hpub as [Hpath Hstore].
  unfold getServiceName in *. rewrite Hid, Hsn in *.
  assert (fssd2.(dynamicConfiguration).(fs_files)
            !! (x.(ServiceName), getServiceInstanceId x) = Some c') as Hfile.
  { rewrite Hstore. simpl. apply lookup_insert_eq. }
  split; [exists c'; split; [by apply getContent_Marshal | done]|].
  assert (GetConfigKeysByGroup x.(ServiceName) fssd2.(dynamicConfiguration)
          = Ok (set_map snd
                  (filter (λ gk : string * string, gk.1 = x.(ServiceName))
                          (dom fssd2.(dynamicConfiguration).(fs_files)))))
    as Hkeys by reflexivity.
  rewrite (GetInstances_elems _ _ _ Hkeys).
  apply (filter_omap_unique _ _ _ (getServiceInstanceId x)).
  - apply NoDup_elements.
  - apply elem_of_elements, fs_keys_elem_of. by rewrite Hfile.
  - apply fs_validRecord. exists c'. split; [done|]. split.
    + by rewrite Hstore.
    + apply Hx'. by apply getContent_Marshal.
  - done.
  - intros key y _ Hvalid Hy.
    apply fs_validRecord in Hvalid as (c & Hc & _ & Hdec).
    specialize (Hinv2 _ _ Hc). simpl in Hinv2. rewrite Hdec in Hinv2.
    congruence.
Qed.

End FileStoreFacts.

(** ** Events *)

Section EventFacts.
Context `{JSON} {S : Type} `{FileSystemDynamicConfiguration S}.
Context {D : Type} `{EventDispatcher D}.

Lemma exec_keeps_dispatcher (c : Call)
    (rt : fileSystemServiceDiscovery S * D) :
  dispatches c = false → (exec c rt).2.2 = rt.2.
Proof. by destruct c. Qed.

(** C2, as the code has it: a listener handed to [AddListener] is accepted
    and dropped ([AddListener] answers [nil] and leaves the client as it
    was), and no sequence of [Register], [Update], [Unregister] and
    [AddListener] calls hands an event to the dispatcher, so no callback
    fires after them.  An event reaches the dispatcher only through an
    explicit dispatch call, and [DispatchEventByServiceName] then dispatches
    the service name with the full current instance list. *)
Theorem only_dispatch_calls_notify (cs : list Call)
    (fssd : fileSystemServiceDiscovery S) (d : D)
    (listener : ServiceInstancesChangedListener) (serviceName : string) :
  Forall (λ c, dispatches c = false) cs →
  (run cs (fssd, d)).2 = d
  ∧ AddListener listener fssd = (None, fssd)
  ∧ DispatchEventByServiceName serviceName fssd d
    = (None,
       Dispatch
         {| EventServiceName := serviceName;
            EventInstances := GetInstances serviceName fssd |} d).
Proof.
  intros Hcs. split; [|done].
  unfold run. revert fssd. induction Hcs as [|c cs Hc _ IH]; intros fssd; [done|].
  simpl. destruct (exec c (fssd, d)) as [err [fssd' d']] eqn:Hexec.
  pose proof (exec_keeps_dispatcher c (fssd, d) Hc) as Hd.
  rewrite Hexec in Hd. simpl in *. subst d'. apply IH.
Qed.

End EventFacts.

(** ** The constructor and the instance cache *)

Section ConstructorFacts.
Context `{JSON} {S : Type} `{FileSystemDynamicConfiguration S}.
Variable FILE_KEY : string.

(** No path through the constructor writes the cache. *)
Lemma newFileSystemServiceDiscovery_instanceMap (name : string)
    (w : Process S) :
  (newFileSystemServiceDiscovery FILE_KEY name w).2.(instanceMap) = w.(instanceMap).
Proof.
  unfold newFileSystemServiceDiscovery.
  destruct (instanceMap w !! name); [done|].
  destruct (baseConfig w !! name) as [sdc|]; [|done].
  case_decide; [done|].
  destruct (home w) as [rp|]; [|done].
  by destruct (configCenterFactory w _).
Qed.

(** With nothing cached under [name], a call that succeeds has called the
    factory and answers a newly allocated client. *)
Lemma newFileSystemServiceDiscovery_constructs (name : string)
    (w : Process S) (address : nat) :
  w.(instanceMap) !! name = None →
  (newFileSystemServiceDiscovery FILE_KEY name w).1 = Ok address →
  address = length w.(heap)
  ∧ length (newFileSystemServiceDiscovery FILE_KEY name w).2.(constructions)
    = Datatypes.S (length w.(constructions)).
Proof.
  unfold newFileSystemServiceDiscovery. intros -> Hok.
  destruct (baseConfig w !! name) as [sdc|]; [|done].
  case_decide; [done|].
  destruct (home w) as [rp|]; [|done].
  destruct (configCenterFactory w _); [|done].
  simpl in *. split; [congruence|]. rewrite length_app. simpl. lia.
Qed.

(** X5: without a cached client, a name that has no backend configuration, or
    one whose protocol is not the file backend's, is refused: the
    constructor answers the configuration error, calls no factory and
    leaves the process as it was. *)
Theorem newFileSystemServiceDiscovery_invalid_config (name : string)
    (w : Process S) :
  w.(instanceMap) !! name = None →
  (∀ sdc, w.(baseConfig) !! name = Some sdc → sdc.(Protocol) ≠ FILE_KEY) →
  newFileSystemServiceDiscovery FILE_KEY name w
  = (Err (errorString
            "could not init the instance because the config is invalid"), w).
Proof.
  unfold newFileSystemServiceDiscovery. intros -> Hbad.
  destruct (baseConfig w !! name) as [sdc|]; [|done].
  rewrite decide_True; [done|]. by apply Hbad.
Qed.

End ConstructorFacts.

(** ** The reference codec *)

(** The reference codec reads back what it writes, for every instance
    whose strings are UTF-8 and whose port is a 64-bit integer
    ([refJSON_roundtrips]). *)

Section ReferenceCodec.

Lemma app_String (c : ascii) (s r : string) :
  String c s +:+ r = String c (s +:+ r).
Proof. reflexivity. Qed.

Lemma app_Empty (r : string) : "" +:+ r = r.
Proof. reflexivity. Qed.

Lemma string_app_assoc (a b c : string) : (a +:+ b) +:+ c = a +:+ (b +:+ c).
Proof.
  induction a as [|x a IH]; [done|]. rewrite !app_String. by f_equal.
Qed.

Lemma expect_app (p r : string) : expect p (p +:+ r) = Some r.
Proof.
  induction p as [|a p IH]; [done|].
  rewrite app_String. simpl. by rewrite decide_True.
Qed.

(** *** UTF-8 *)

Lemma length_app_string (a b : string) :
  String.length (a +:+ b) = (String.length a + String.length b)%nat.
Proof. induction a as [|c a IH]; [done|]. simpl. by rewrite IH. Qed.

(** Payload arithmetic of multi-byte sequences. *)
Lemma payload_div (x y d : N) : (y < d)%N → ((x * d + y) / d = x)%N.
Proof.
  intros Hy. symmetry. apply (N.div_unique _ _ _ y); [done|lia].
Qed.

Lemma payload_mod (x y d : N) : (y < d)%N → ((x * d + y) mod d = y)%N.
Proof.
  intros Hy. symmetry. apply (N.mod_unique _ _ x); [done|lia].
Qed.

Lemma ascii_of_N_of_ascii_add (c : ascii) (base : N) :
  (base ≤ N_of_ascii c)%N → ascii_of_N (base + (N_of_ascii c - base)) = c.
Proof.
  intros Hc. replace (base + (N_of_ascii c - base))%N with (N_of_ascii c) by lia.
  apply ascii_N_embedding.
Qed.

Lemma inRange_spec lo hi c :
  inRange lo hi c = true ↔ (lo ≤ N_of_ascii c ≤ hi)%N.
Proof. unfold inRange. by rewrite bool_decide_eq_true. Qed.

Lemma encode_plain (r : N) :
  ¬ (55296 ≤ r ≤ 57343 ∨ 1114111 < r)%N →
  utf8_EncodeRune r
  = if decide (r < 128)%N then String (ascii_of_N r) ""
    else if decide (r < 2048)%N then
      String (ascii_of_N (192 + r / 64)) (String (contByte r 1) "")
    else if decide (r < 65536)%N then
      String (ascii_of_N (224 + r / 4096))
        (String (contByte r 64) (String (contByte r 1) ""))
    else
      String (ascii_of_N (240 + r / 262144))
        (String (contByte r 4096)
           (String (contByte r 64) (String (contByte r 1) ""))).
Proof.
  intros Hr. unfold utf8_EncodeRune. cbv zeta.
  destruct (decide (55296 ≤ r ≤ 57343 ∨ 1114111 < r)%N); [done|reflexivity].
Qed.

(** A valid sequence at the head of a string. *)
Lemma decode_valid (s : string) (r : N) (k : nat) :
  utf8_DecodeRuneInString s = (r, k) →
  (r, k) ≠ (RuneError, 1%nat) →
  s ≠ "" →
  ∃ c seq tail,
    s = String c seq +:+ tail
    ∧ String.length (String c seq) = k
    ∧ (∀ t, utf8_DecodeRuneInString (String c seq +:+ t) = (r, k))
    ∧ utf8_EncodeRune r = String c seq
    ∧ ((N_of_ascii c < 128)%N → seq = "" ∧ r = N_of_ascii c).
Proof.
  intros Hdec Hvalid Hs.
  destruct s as [|c0 rest]; [done|]. clear Hs.
  unfold utf8_DecodeRuneInString in Hdec.
  destruct (decide (N_of_ascii c0 < 128)%N) as [H1|H1].
  { injection Hdec as <- <-. exists c0, "", rest.
    split; [done|]. split; [done|]. split.
    - intros t. simpl. by rewrite decide_True.
    - split; [|done]. rewrite encode_plain by lia.
      rewrite decide_True by done. by rewrite ascii_N_embedding. }
  destruct (decide (194 ≤ N_of_ascii c0 ≤ 223)%N) as [H2|H2].
  { destruct rest as [|c1 rest]; [by injection Hdec as <- <-|].
    destruct (inRange 128 191 c1) eqn:Hc1; [|by injection Hdec as <- <-].
    apply inRange_spec in Hc1.
    injection Hdec as <- <-. exists c0, (String c1 ""), rest.
    split; [done|]. split; [done|]. split.
    - intros t. simpl. rewrite decide_False, decide_True by done.
      by rewrite (proj2 (inRange_spec _ _ _) Hc1).
    - split; [|lia]. unfold contBits.
      set (x := (N_of_ascii c0 - 192)%N). set (y := (N_of_ascii c1 - 128)%N).
      assert (2 ≤ x < 32)%N by lia. assert (y < 64)%N by lia.
      rewrite encode_plain by lia. unfold contByte.
      rewrite decide_False by lia. rewrite decide_True by lia.
      rewrite payload_div by done. rewrite N.div_1_r, payload_mod by done.
      subst x y. by rewrite !ascii_of_N_of_ascii_add by lia. }
  destruct (decide (224 ≤ N_of_ascii c0 ≤ 239)%N) as [H3|H3].
  { destruct rest as [|c1 [|c2 rest]]; [by injection Hdec as <- <-..|].
    destruct (inRange _ _ c1) eqn:Hc1; [|by injection Hdec as <- <-].
    destruct (inRange 128 191 c2) eqn:Hc2; [|by injection Hdec as <- <-].
    apply inRange_spec in Hc1. apply inRange_spec in Hc2.
    simpl in Hdec. injection Hdec as <- <-.
    exists c0, (String c1 (String c2 "")), rest.
    split; [done|]. split; [done|]. split.
    - intros t. simpl. rewrite !decide_False by done. rewrite decide_True by done.
      rewrite (proj2 (inRange_spec _ _ _) Hc1).
      by rewrite (proj2 (inRange_spec _ _ _) Hc2).
    - split; [|lia]. unfold contBits.
      set (x := (N_of_ascii c0 - 224)%N). set (y := (N_of_ascii c1 - 128)%N).
      set (z := (N_of_ascii c2 - 128)%N).
      assert (x < 16)%N by lia. assert (z < 64)%N by lia.
      assert (128 ≤ N_of_ascii c1 ∧ y < 64 ∧ (x = 0 → 32 ≤ y) ∧ (x = 13 → y < 32))%N
        as (Hc1' & Hy & Hlo & Hhi).
      { subst x y. repeat case_decide; lia. }
      replace (x * 4096 + y * 64 + z)%N with ((x * 64 + y) * 64 + z)%N by lia.
      rewrite encode_plain by lia. unfold contByte.
      rewrite decide_False by lia. rewrite decide_False by lia.
      rewrite decide_True by lia.
      rewrite N.div_1_r, payload_mod, payload_div by done.
      rewrite payload_mod by done.
      replace ((x * 64 + y) * 64 + z)%N with (x * 4096 + (y * 64 + z))%N by lia.
      rewrite payload_div by lia.
      subst x y z. by rewrite !ascii_of_N_of_ascii_add by lia. }
  destruct (decide (240 ≤ N_of_ascii c0 ≤ 244)%N) as [H4|H4];
    [|by injection Hdec as <- <-].
  destruct rest as [|c1 [|c2 [|c3 rest]]]; [by injection Hdec as <- <-..|].
  destruct (inRange _ _ c1) eqn:Hc1; [|by injection Hdec as <- <-].
  destruct (inRange 128 191 c2) eqn:Hc2; [|by injection Hdec as <- <-].
  destruct (inRange 128 191 c3) eqn:Hc3; [|by injection Hdec as <- <-].
  apply inRange_spec in Hc1. apply inRange_spec in Hc2.
  apply inRange_spec in Hc3.
  simpl in Hdec. injection Hdec as <- <-.
  exists c0, (String c1 (String c2 (String c3 ""))), rest.
  split; [done|]. split; [done|]. split.
  - intros t. simpl. rewrite !decide_False by done. rewrite decide_True by done.
    rewrite (proj2 (inRange_spec _ _ _) Hc1).
    rewrite (proj2 (inRange_spec _ _ _) Hc2).
    by rewrite (proj2 (inRange_spec _ _ _) Hc3).
  - split; [|lia]. unfold contBits.
    set (x := (N_of_ascii c0 - 240)%N). set (y := (N_of_ascii c1 - 128)%N).
    set (z := (N_of_ascii c2 - 128)%N). set (u := (N_of_ascii c3 - 128)%N).
    assert (x < 5)%N by lia. assert (z < 64)%N by lia. assert (u < 64)%N by lia.
    assert (128 ≤ N_of_ascii c1 ∧ y < 64 ∧ (x = 0 → 16 ≤ y) ∧ (x = 4 → y < 16))%N
      as (Hc1' & Hy & Hlo & Hhi).
    { subst x y. repeat case_decide; lia. }
    replace (x * 262144 + y * 4096 + z * 64 + u)%N
      with (((x * 64 + y) * 64 + z) * 64 + u)%N by lia.
    rewrite encode_plain by lia. unfold contByte.
    rewrite decide_False by lia. rewrite decide_False by lia.
    rewrite decide_False by lia.
    rewrite N.div_1_r, payload_mod, payload_div by done.
    rewrite payload_mod by done.
    replace (((x * 64 + y) * 64 + z) * 64 + u)%N
      with ((x * 64 + y) * 4096 + (z * 64 + u))%N by lia.
    rewrite payload_div by lia. rewrite payload_mod by done.
    replace ((x * 64 + y) * 4096 + (z * 64 + u))%N
      with (x * 262144 + (y * 4096 + z * 64 + u))%N by lia.
    rewrite payload_div by lia.
    subst x y z u. by rewrite !ascii_of_N_of_ascii_add by lia.
Qed.

(** *** Strings *)

Lemma dropBytes_app (a t : string) :
  dropBytes (String.length a) (a +:+ t) = t.
Proof. induction a as [|c a IH]; [by destruct t|done]. Qed.

Lemma takeBytes_app (a t : string) :
  takeBytes (String.length a) (a +:+ t) = a.
Proof. induction a as [|c a IH]; [by destruct t|]. simpl. by rewrite IH. Qed.

(** The reader on the escape of one byte below 0x80. *)
Lemma readStringBody_ascii (c : ascii) (f : nat) (t : string) :
  (N_of_ascii c < 128)%N →
  readStringBody (Datatypes.S f)
    ((if htmlSafe c then String c "" else escapeByte c) +:+ t)
  = '(body, after) ← readStringBody f t; Some (String c body, after).
Proof.
  intros Hc.
  destruct c as [[] [] [] [] [] [] [] []];
    first [ by vm_compute in Hc | reflexivity ].
Qed.

(** The reader on the escape of U+2028 and of U+2029. *)
Lemma readStringBody_separator (r : N) (f : nat) (t : string) :
  (r = 8232 ∨ r = 8233)%N →
  readStringBody (Datatypes.S f)
    (String backslashChar "u202" +:+ String (hexChar (r mod 16)) "" +:+ t)
  = '(body, after) ← readStringBody f t;
    Some (utf8_EncodeRune r +:+ body, after).
Proof. intros [-> | ->]; reflexivity. Qed.

Lemma escape_ascii_length (c : ascii) :
  (1 ≤ String.length (if htmlSafe c then String c "" else escapeByte c))%nat.
Proof. destruct (htmlSafe c); simpl; lia. Qed.

Lemma validString_nonempty n c rest :
  validString n (String c rest) = true →
  ∃ n', n = Datatypes.S n'
    ∧ utf8_DecodeRuneInString (String c rest) ≠ (RuneError, 1%nat)
    ∧ validString n'
        (dropBytes (utf8_DecodeRuneInString (String c rest)).2 (String c rest))
      = true.
Proof.
  destruct n as [|n']; [done|]. intros Hv. exists n'. split; [done|].
  change (bool_decide (utf8_DecodeRuneInString (String c rest)
                       ≠ (RuneError, 1%nat))
          && validString n'
               (dropBytes (utf8_DecodeRuneInString (String c rest)).2
                  (String c rest)) = true) in Hv.
  apply andb_true_iff in Hv as [Hd Hv]. by apply bool_decide_eq_true in Hd.
Qed.

Lemma readStringBody_jsonEscape (n : nat) :
  ∀ s, validString n s = true →
  ∀ fe fr t,
    (String.length s ≤ fe)%nat →
    (String.length (jsonEscape fe s) < fr)%nat →
    readStringBody fr (jsonEscape fe s +:+ String quoteChar t) = Some (s, t).
Proof.
  induction n as [|n IH]; intros s Hv fe fr t Hfe Hfr.
  { destruct s; [|done]. destruct fe, fr; simpl in *; try lia; done. }
  destruct s as [|c rest].
  { destruct fe, fr; simpl in *; try lia; done. }
  apply validString_nonempty in Hv as (n' & [= <-] & Hvalid & Hv).
  destruct (utf8_DecodeRuneInString (String c rest)) as [r k] eqn:Hdec.
  destruct (decode_valid _ _ _ Hdec Hvalid) as
    (c' & seq & tail & Hs & Hlen & Hpre & Henc & Hascii); [done|].
  rewrite app_String in Hs. injection Hs as <- ->.
  cbn [snd] in Hv.
  assert (dropBytes k (String c (seq +:+ tail)) = tail) as Hdrop.
  { rewrite <- Hlen. apply (dropBytes_app (String c seq)). }
  assert (takeBytes k (String c (seq +:+ tail)) = String c seq) as Htake.
  { rewrite <- Hlen. apply (takeBytes_app (String c seq)). }
  rewrite Hdrop in Hv.
  destruct fe as [|fe]; [simpl in Hfe; lia|].
  assert (String.length tail ≤ fe)%nat as Hfe'.
  { simpl in Hfe. rewrite length_app_string in Hfe. lia. }
  destruct fr as [|fr]; [lia|].
  cbn [jsonEscape] in Hfr |- *.
  destruct (decide (N_of_ascii c < 128)%N) as [Hc|Hc].
  - destruct (Hascii Hc) as [-> ->]. rewrite app_Empty in *.
    rewrite string_app_assoc, readStringBody_ascii by done.
    rewrite length_app_string in Hfr.
    pose proof (escape_ascii_length c).
    rewrite (IH tail Hv fe fr t) by (done || lia). done.
  - rewrite Hdec in Hfr |- *.
    rewrite decide_False in Hfr |- * by done. cbn [fst snd] in Hfr |- *.
    rewrite Hdrop in Hfr |- *. rewrite Htake in Hfr |- *.
    assert (c ≠ quoteChar ∧ c ≠ backslashChar ∧ ¬ (N_of_ascii c < 32)%N)
      as (Hq & Hb & Hlow).
    { repeat split; try (intros ->; apply Hc; by vm_compute). lia. }
    destruct (decide (r = 8232 ∨ r = 8233)%N) as [Hsep|Hsep].
    + rewrite !length_app_string in Hfr. cbn [String.length] in Hfr.
      assert (readStringBody fr (jsonEscape fe tail +:+ String quoteChar t)
              = Some (tail, t)) as Hrest by (apply IH; [done|done|lia]).
      rewrite !string_app_assoc, readStringBody_separator by done.
      rewrite Hrest. cbn. by rewrite Henc.
    + rewrite length_app_string in Hfr. cbn [String.length] in Hfr.
      rewrite string_app_assoc. rewrite app_String.
      cbn [readStringBody].
      rewrite !decide_False by done.
      rewrite <- app_String. rewrite (Hpre _). cbn [fst snd].
      rewrite <- Hlen at 1. rewrite (dropBytes_app (String c seq)).
      rewrite (IH tail Hv fe fr t) by (done || lia).
      cbn. rewrite Henc. by rewrite app_String.
Qed.

Lemma readString_jsonString (s t : string) :
  utf8_ValidString s = true →
  readString (jsonString s +:+ t) = Some (s, t).
Proof.
  intros Hv. unfold jsonString. rewrite string_app_assoc, !app_String.
  rewrite app_Empty. unfold readString. rewrite decide_True by done.
  apply (readStringBody_jsonEscape _ _ Hv); [done|].
  rewrite length_app_string. simpl. lia.
Qed.

Lemma string_app_empty_r (s : string) : s +:+ "" = s.
Proof. induction s as [|c s IH]; [done|]. rewrite app_String. by f_equal. Qed.

(** *** Numbers *)

Lemma pretty_N_char_digit (d : N) :
  (d < 10)%N →
  isDigit (pretty_N_char d) = true
  ∧ Z.of_N (N_of_ascii (pretty_N_char d)) - 48 = Z.of_N d
  ∧ (d ≠ 0%N → pretty_N_char d ≠ "0"%char).
Proof.
  intros Hd.
  assert (d = 0 ∨ d = 1 ∨ d = 2 ∨ d = 3 ∨ d = 4 ∨ d = 5 ∨ d = 6 ∨ d = 7
          ∨ d = 8 ∨ d = 9)%N as Hcases by lia.
  repeat (destruct Hcases as [->|Hcases]; [by vm_compute|]).
  subst. by vm_compute.
Qed.

Lemma readDigits_app (a t : string) :
  readDigits a = (a, "") →
  readDigits (a +:+ t) = (a +:+ (readDigits t).1, (readDigits t).2).
Proof.
  induction a as [|c a IH]; intros Ha.
  - rewrite !app_Empty. by destruct (readDigits t).
  - rewrite app_String. simpl in Ha |- *.
    destruct (isDigit c); [|done].
    rewrite IH; [done|].
    destruct (readDigits a) as [d r]. simpl in Ha. by injection Ha as -> ->.
Qed.

Lemma parseDigits_app (a b : string) (acc : Z) :
  parseDigits acc (a +:+ b) = acc' ← parseDigits acc a; parseDigits acc' b.
Proof.
  revert acc. induction a as [|c a IH]; intros acc; [done|].
  rewrite app_String. simpl. destruct (isDigit c); [apply IH|done].
Qed.

Lemma pretty_N_go_digits (x : N) :
  (0 < x)%N →
  ∃ c D,
    isDigit c = true ∧ c ≠ "0"%char
    ∧ (∀ s, pretty_N_go x s = String c D +:+ s)
    ∧ readDigits (String c D) = (String c D, "")
    ∧ ∀ acc, parseDigits acc (String c D)
             = Some (acc * 10 ^ Z.of_nat (String.length (String c D))
                     + Z.of_N x).
Proof.
  induction (N.lt_wf_0 x) as [x _ IH]; intros Hx.
  assert (x `mod` 10 < 10)%N as Hmod by (apply N.mod_lt; lia).
  destruct (pretty_N_char_digit _ Hmod) as (Hdigit & Hvalue & Hnonzero).
  destruct (decide (x `div` 10 = 0)%N) as [Hsmall|Hbig].
  - exists (pretty_N_char (x `mod` 10)), "".
    apply N.div_small_iff in Hsmall; [|lia].
    rewrite N.mod_small in * by done.
    split; [done|]. split; [apply Hnonzero; lia|]. split.
    + intros s. rewrite pretty_N_go_step by done.
      rewrite (proj2 (N.div_small_iff x 10 ltac:(lia))) by done.
      rewrite pretty_N_go_0. by rewrite N.mod_small by done.
    + split; [simpl; by rewrite Hdigit|].
      intros acc. simpl. rewrite Hdigit. f_equal. lia.
  - destruct (IH (x `div` 10)%N) as (c & D & Hc & Hc0 & Hgo & Hread & Hparse).
    { apply N.div_lt; lia. }
    { by apply N.neq_0_lt_0. }
    exists c, (D +:+ String (pretty_N_char (x `mod` 10)) "").
    split; [done|]. split; [done|]. split.
    + intros s. rewrite pretty_N_go_step by done. rewrite Hgo.
      rewrite <- !app_String. by rewrite string_app_assoc.
    + split.
      * rewrite <- app_String, readDigits_app by done.
        simpl. by rewrite Hdigit.
      * intros acc. rewrite <- app_String, parseDigits_app, Hparse.
        simpl. rewrite Hdigit. f_equal.
        rewrite length_app_string. simpl String.length.
        replace (Z.of_nat (S (String.length D + 1)))
          with (Z.of_nat (S (String.length D)) + 1) by lia.
        rewrite Z.pow_add_r, Z.pow_1_r by lia.
        assert (Z.of_N x = 10 * Z.of_N (x `div` 10) + Z.of_N (x `mod` 10)) as ->.
        { rewrite (N.div_mod x 10) at 1 by done.
          by rewrite N2Z.inj_add, N2Z.inj_mul. }
        lia.
Qed.

Lemma Itoa_shape (z : Z) :
  ∃ sign c D,
    strconv_Itoa z = sign +:+ String c D
    ∧ (sign = "" ∧ 0 ≤ z ∨ sign = "-" ∧ z < 0)
    ∧ isDigit c = true
    ∧ (D = "" ∨ c ≠ "0"%char)
    ∧ readDigits (String c D) = (String c D, "")
    ∧ parseDigits 0 (String c D) = Some (Z.abs z).
Proof.
  unfold strconv_Itoa, pretty, pretty_Z. destruct z as [|p|p].
  - exists "", "0"%char, "". repeat split; try done. by left. by left.
  - unfold pretty, pretty_positive, pretty, pretty_N.
    rewrite decide_False by done.
    destruct (pretty_N_go_digits (N.pos p)) as (c & D & Hc & Hc0 & Hgo & Hread & Hparse);
      [done|].
    exists "", c, D. rewrite Hgo, string_app_empty_r.
    split; [done|]. split; [by left|]. split; [done|]. split; [by right|].
    split; [done|]. rewrite Hparse. f_equal.
  - unfold pretty, pretty_positive, pretty, pretty_N.
    rewrite decide_False by done.
    destruct (pretty_N_go_digits (N.pos p)) as (c & D & Hc & Hc0 & Hgo & Hread & Hparse);
      [done|].
    exists "-", c, D. rewrite Hgo, string_app_empty_r.
    split; [done|]. split; [by right|]. split; [done|]. split; [by right|].
    split; [done|]. rewrite Hparse. f_equal.
Qed.

Lemma expect_dash_digit (c : ascii) (rest : string) :
  isDigit c = true → expect "-" (String c rest) = None.
Proof.
  intros Hc. simpl. rewrite decide_False; [done|]. by intros <-.
Qed.

Lemma readNumber_Itoa (z : Z) (t : string) :
  readNumber (strconv_Itoa z +:+ "," +:+ t)
  = Some (strconv_Itoa z, "," +:+ t).
Proof.
  change ("," +:+ t) with (String ","%char t).
  destruct (Itoa_shape z) as (sign & c & D & -> & Hsign & Hc & Hzero & Hread & _).
  assert (readDigits1 (String c D +:+ String ","%char t)
          = Some (String c D, String ","%char t)) as Hdigits.
  { unfold readDigits1. rewrite readDigits_app by done.
    change (readDigits (String ","%char t)) with ("", String ","%char t).
    cbn [fst snd]. rewrite string_app_empty_r.
    by rewrite decide_False. }
  assert (¬ (String.length (String c D) ≠ 1%nat
             ∧ expect "0" (String c D) ≠ None)) as Hlead.
  { intros [Hlen Hz]. destruct Hzero as [-> | Hzero]; [done|].
    apply Hz. simpl. by rewrite decide_False. }
  unfold readNumber.
  destruct Hsign as [[-> _] | [-> _]].
  - rewrite app_Empty. rewrite app_String at 1.
    rewrite expect_dash_digit by done.
    rewrite Hdigits. cbn [mbind option_bind].
    rewrite decide_False by done. cbn.
    rewrite (decide_False (P := "."%char = ","%char)) by discriminate. cbn.
    rewrite decide_False by (intros [|]; discriminate). cbn.
    by rewrite !string_app_empty_r.
  - rewrite string_app_assoc, (expect_app "-").
    rewrite Hdigits. cbn [mbind option_bind].
    rewrite decide_False by done. cbn.
    rewrite (decide_False (P := "."%char = ","%char)) by discriminate. cbn.
    rewrite decide_False by (intros [|]; discriminate). cbn.
    by rewrite !string_app_empty_r.
Qed.

Lemma parseInt_Itoa (z : Z) : parseInt (strconv_Itoa z) = Some z.
Proof.
  destruct (Itoa_shape z) as (sign & c & D & -> & Hsign & Hc & _ & _ & Hparse).
  unfold parseInt. destruct Hsign as [[-> Hz] | [-> Hz]].
  - rewrite app_Empty, expect_dash_digit by done.
    rewrite Hparse. f_equal. lia.
  - rewrite (expect_app "-"), Hparse. simpl. f_equal. lia.
Qed.

Lemma Itoa_head (z : Z) :
  ∃ c rest, strconv_Itoa z = String c rest
            ∧ (c = "-"%char ∨ isDigit c = true).
Proof.
  destruct (Itoa_shape z) as (sign & c & D & -> & Hsign & Hc & _).
  destruct Hsign as [[-> _] | [-> _]].
  - exists c, D. split; [done | by right].
  - exists "-"%char, (String c D). split; [done | by left].
Qed.

(** *** Values *)

Lemma jsonString_head (s : string) :
  ∃ body, ∀ t, jsonString s +:+ t = String quoteChar (body +:+ t).
Proof.
  exists (jsonEscape (String.length s) s +:+ String quoteChar "").
  intros t. unfold jsonString. by rewrite app_String.
Qed.

Lemma readValue_string (f : nat) (s t : string) :
  utf8_ValidString s = true →
  readValue (Datatypes.S f) (jsonString s +:+ t) = Some (JString s, t).
Proof.
  intros Hs. pose proof (readString_jsonString s t Hs) as Hread.
  destruct (jsonString_head s) as [body Hbody]. rewrite Hbody in Hread |- *.
  cbn [readValue]. change (skipSpace (String quoteChar (body +:+ t)))
    with (String quoteChar (body +:+ t)).
  cbv beta iota. rewrite !(decide_False (P := quoteChar = _)) by discriminate.
  rewrite decide_True by done. by rewrite Hread.
Qed.

Lemma readValue_bool (f : nat) (b : bool) (t : string) :
  readValue (Datatypes.S f) (jsonBool b +:+ t) = Some (JBool b, t).
Proof. by destruct b. Qed.

Lemma readValue_number (f : nat) (z : Z) (t : string) :
  readValue (Datatypes.S f) (strconv_Itoa z +:+ "," +:+ t)
  = Some (JNumber (strconv_Itoa z), "," +:+ t).
Proof.
  pose proof (readNumber_Itoa z t) as Hread.
  destruct (Itoa_head z) as (c & rest & Hz & Hc).
  rewrite Hz in Hread |- *. rewrite app_String in Hread |- *.
  assert (isSpace c = false ∧ c ≠ "{"%char ∧ c ≠ "["%char ∧ c ≠ quoteChar
          ∧ c ≠ "t"%char ∧ c ≠ "f"%char ∧ c ≠ "n"%char)
    as (Hspace & H1 & H2 & H3 & H4 & H5 & H6).
  { destruct Hc as [-> | Hc]; [by vm_compute|].
    split; [|repeat split; intros ->; by vm_compute in Hc].
    unfold isSpace. apply bool_decide_eq_false. intros Hin.
    repeat (apply elem_of_cons in Hin as [-> | Hin]; [by vm_compute in Hc|]).
    by apply elem_of_nil in Hin. }
  cbn [readValue skipSpace]. rewrite Hspace.
  rewrite !decide_False by done. by rewrite Hread.
Qed.

(** *** Members *)

Lemma skipSpace_quote (s : string) :
  skipSpace (String quoteChar s) = String quoteChar s.
Proof. reflexivity. Qed.

(** One member with a member behind it. *)
Lemma readMembers_more (f : nat) (k text rest : string) (v : jsonValue) :
  utf8_ValidString k = true →
  readValue f (text +:+ "," +:+ String quoteChar rest)
  = Some (v, "," +:+ String quoteChar rest) →
  readMembers (Datatypes.S f)
    (jsonMember k text +:+ "," +:+ String quoteChar rest)
  = '(ms, after) ← readMembers f (String quoteChar rest);
    Some ((k, v) :: ms, after).
Proof.
  intros Hk Hv. unfold jsonMember. rewrite !string_app_assoc.
  cbn [readMembers]. rewrite readString_jsonString by done.
  cbn [mbind option_bind].
  change (skipSpace (":" +:+ ?x)) with (String ":"%char x).
  change (expect ":" (String ":"%char ?x)) with (Some x).
  cbn [mbind option_bind]. rewrite Hv. cbn [mbind option_bind].
  change (skipSpace ("," +:+ ?x)) with (String ","%char x).
  change (expect "," (String ","%char ?x)) with (Some x).
  cbv beta iota. by rewrite skipSpace_quote.
Qed.

(** The last member of an object. *)
Lemma readMembers_last (f : nat) (k text t : string) (v : jsonValue) :
  utf8_ValidString k = true →
  readValue f (text +:+ "}" +:+ t) = Some (v, "}" +:+ t) →
  readMembers (Datatypes.S f) (jsonMember k text +:+ "}" +:+ t)
  = Some ([(k, v)], t).
Proof.
  intros Hk Hv. unfold jsonMember. rewrite !string_app_assoc.
  cbn [readMembers]. rewrite readString_jsonString by done.
  cbn [mbind option_bind].
  change (skipSpace (":" +:+ ?x)) with (String ":"%char x).
  change (expect ":" (String ":"%char ?x)) with (Some x).
  cbn [mbind option_bind]. rewrite Hv. cbn [mbind option_bind].
  change (skipSpace ("}" +:+ ?x)) with (String "}"%char x).
  change (expect "," (String "}"%char ?x)) with (@None string).
  by change (expect "}" (String "}"%char ?x)) with (Some x).
Qed.

Lemma jsonMember_head (k text : string) :
  ∃ body, ∀ t, jsonMember k text +:+ t = String quoteChar (body +:+ t).
Proof.
  destruct (jsonString_head k) as [body Hbody].
  exists (body +:+ ":" +:+ text). intros t. unfold jsonMember.
  rewrite !string_app_assoc. rewrite Hbody. by rewrite ?string_app_assoc.
Qed.

Lemma jsonMembers_cons (k v : string) (l : list (string * string)) :
  l ≠ [] →
  jsonMembers ((k, v) :: l)
  = jsonMember k (jsonString v) +:+ "," +:+ jsonMembers l.
Proof. by destruct l. Qed.

Lemma jsonMembers_head (l : list (string * string)) :
  l ≠ [] →
  ∃ body, ∀ t, jsonMembers l +:+ t = String quoteChar (body +:+ t).
Proof.
  destruct l as [|[k v] l]; [done|]. intros _.
  destruct (jsonMember_head k (jsonString v)) as [body Hbody].
  destruct l as [|kv l].
  - exists body. apply Hbody.
  - exists (body +:+ "," +:+ jsonMembers (kv :: l)). intros t.
    rewrite jsonMembers_cons by done.
    rewrite !string_app_assoc. rewrite Hbody. by rewrite ?string_app_assoc.
Qed.

Lemma readMembers_jsonMembers (l : list (string * string)) :
  l ≠ [] →
  Forall (λ kv, utf8_ValidString kv.1 = true ∧ utf8_ValidString kv.2 = true) l →
  ∀ f t,
    (length l < f)%nat →
    readMembers f (jsonMembers l +:+ "}" +:+ t)
    = Some ((λ kv, (kv.1, JString kv.2)) <$> l, t).
Proof.
  induction l as [|[k v] l IH]; [done|]. intros _ Hvalid f t Hf.
  apply Forall_cons in Hvalid as [[Hk Hv] Hvalid]. simpl in Hk, Hv.
  destruct f as [|[|f]]; [simpl in Hf; lia..|].
  destruct l as [|kv l].
  - simpl jsonMembers. rewrite (readMembers_last _ _ _ _ (JString v)); [done..|].
    by apply readValue_string.
  - rewrite jsonMembers_cons by done. rewrite !string_app_assoc.
    destruct (jsonMembers_head (kv :: l)) as [body Hbody]; [done|].
    rewrite Hbody.
    rewrite (readMembers_more _ _ _ _ (JString v)); [|done|].
    + rewrite <- Hbody. rewrite IH; [done|done|done|]. simpl in Hf |- *. lia.
    + by apply readValue_string.
Qed.

Lemma readValue_metadata (l : list (string * string)) (f : nat) (t : string) :
  Forall (λ kv, utf8_ValidString kv.1 = true ∧ utf8_ValidString kv.2 = true) l →
  (length l < f)%nat →
  readValue (Datatypes.S f) ("{" +:+ jsonMembers l +:+ "}" +:+ t)
  = Some (JObject ((λ kv, (kv.1, JString kv.2)) <$> l), t).
Proof.
  intros Hvalid Hf. destruct (decide (l = [])) as [-> | Hl]; [done|].
  destruct (jsonMembers_head l Hl) as [body Hbody].
  pose proof (readMembers_jsonMembers l Hl Hvalid f t Hf) as Hread.
  rewrite Hbody in Hread |- *.
  change ("{" +:+ ?x) with (String "{"%char x).
  cbn [readValue skipSpace]. change (isSpace "{") with false.
  cbv beta iota. rewrite decide_True by done.
  rewrite skipSpace_quote.
  change (expect "}" (String quoteChar ?x)) with (@None string).
  cbv beta iota. by rewrite Hread.
Qed.

(** *** Storing *)

Lemma storeMap_members (l : list (string * string)) (m : gmap string string) :
  foldl storeEntry (Ok m) ((λ kv, (kv.1, JString kv.2)) <$> l)
  = Ok (foldl (λ acc kv, <[kv.1 := kv.2]> acc) m l).
Proof. revert m. induction l as [|kv l IH]; intros m; [done|]. apply IH. Qed.

Lemma foldl_insert_sorted (m : gmap string string) :
  foldl (λ acc kv, <[kv.1 := kv.2]> acc) ∅
        (merge_sort keyOrder (map_to_list m))
  = m.
Proof.
  assert (∀ l : list (string * string),
            foldl (λ acc kv, <[kv.1 := kv.2]> acc) (∅ : gmap string string) l
            = list_to_map (reverse l)) as Hrev.
  { induction l as [|kv l IH] using rev_ind; [done|].
    rewrite foldl_snoc, reverse_snoc, IH. by destruct kv. }
  rewrite Hrev. rewrite <- (list_to_map_to_list m) at 2.
  apply list_to_map_proper.
  - rewrite fmap_reverse, reverse_Permutation, merge_sort_Permutation.
    apply NoDup_fst_map_to_list.
  - rewrite reverse_Permutation. apply merge_sort_Permutation.
Qed.

(** *** Instances *)

Lemma jsonMembers_length (l : list (string * string)) :
  (length l ≤ String.length (jsonMembers l))%nat.
Proof.
  induction l as [|[k v] l IH]; [done|].
  destruct (decide (l = [])) as [-> | Hl].
  - destruct (jsonMember_head k (jsonString v)) as [body Hbody].
    simpl jsonMembers. rewrite <- (string_app_empty_r (jsonMember _ _)), Hbody.
    simpl. lia.
  - rewrite jsonMembers_cons by done. rewrite !length_app_string.
    simpl in IH |- *. lia.
Qed.

Lemma sorted_valid (m : gmap string string) :
  map_Forall (λ k v, utf8_ValidString k = true ∧ utf8_ValidString v = true) m →
  Forall (λ kv, utf8_ValidString kv.1 = true ∧ utf8_ValidString kv.2 = true)
         (merge_sort keyOrder (map_to_list m)).
Proof.
  intros Hm. rewrite merge_sort_Permutation.
  apply Forall_forall. intros [k v] Hkv.
  apply elem_of_map_to_list in Hkv. apply (Hm k v Hkv).
Qed.

Lemma readValue_refMarshal (x : ServiceInstance) (c : string) (f : nat) :
  validInstance x →
  refMarshal x = Ok c →
  (size x.(Metadata) < f)%nat →
  readValue (8 + f) c
  = Some (JObject
            [("Id", JString x.(Id));
             ("ServiceName", JString x.(ServiceName));
             ("Host", JString x.(Host));
             ("Port", JNumber (strconv_Itoa x.(Port)));
             ("Healthy", JBool x.(Healthy));
             ("Metadata",
              JObject ((λ kv, (kv.1, JString kv.2))
                       <$> merge_sort keyOrder (map_to_list x.(Metadata))))],
          "").
Proof.
  intros (Hid & Hsn & Hhost & _ & Hmeta) [= <-] Hf.
  set (l := merge_sort keyOrder (map_to_list x.(Metadata))).
  assert (length l < f)%nat as Hl.
  { unfold l. rewrite merge_sort_Permutation, length_map_to_list. exact Hf. }
  pose proof (sorted_valid _ Hmeta) as Hvalid. fold l in Hvalid.
  destruct (jsonMember_head "Id" (jsonString x.(Id))) as [b1 H1].
  destruct (jsonMember_head "ServiceName" (jsonString x.(ServiceName)))
    as [b2 H2].
  destruct (jsonMember_head "Host" (jsonString x.(Host))) as [b3 H3].
  destruct (jsonMember_head "Port" (strconv_Itoa x.(Port))) as [b4 H4].
  destruct (jsonMember_head "Healthy" (jsonBool x.(Healthy))) as [b5 H5].
  destruct (jsonMember_head "Metadata" ("{" +:+ jsonMembers l +:+ "}"))
    as [b6 H6].
  change (8 + f)%nat
    with (Datatypes.S (Datatypes.S (Datatypes.S (Datatypes.S (Datatypes.S
           (Datatypes.S (Datatypes.S (Datatypes.S f)))))))).
  change ("{" +:+ ?s) with (String "{"%char s).
  cbn [readValue skipSpace]. change (isSpace "{") with false.
  cbv beta iota. rewrite decide_True by done.
  rewrite H1. rewrite !skipSpace_quote.
  change (expect "}" (String quoteChar ?s)) with (@None string).
  cbv beta iota. rewrite <- H1.
  rewrite H2.
  rewrite (readMembers_more _ _ _ _ (JString x.(Id)));
    [|done|by apply readValue_string].
  rewrite <- H2. rewrite H3.
  rewrite (readMembers_more _ _ _ _ (JString x.(ServiceName)));
    [|done|by apply readValue_string].
  rewrite <- H3. rewrite H4.
  rewrite (readMembers_more _ _ _ _ (JString x.(Host)));
    [|done|by apply readValue_string].
  rewrite <- H4. rewrite H5.
  rewrite (readMembers_more _ _ _ _ (JNumber (strconv_Itoa x.(Port))));
    [|done|by apply readValue_number].
  rewrite <- H5. rewrite H6.
  rewrite (readMembers_more _ _ _ _ (JBool x.(Healthy)));
    [|done|by apply readValue_bool].
  rewrite <- H6.
  change "}" with ("}" +:+ "") at 2.
  rewrite (readMembers_last _ _ _ _
             (JObject ((λ kv, (kv.1, JString kv.2)) <$> l))); [done|done|].
  rewrite !string_app_assoc. by apply readValue_metadata.
Qed.

Lemma refMarshal_length (x : ServiceInstance) (c : string) :
  refMarshal x = Ok c →
  (size x.(Metadata) + 8 ≤ String.length c)%nat.
Proof.
  intros [= <-].
  pose proof (jsonMembers_length (merge_sort keyOrder (map_to_list x.(Metadata))))
    as Hlen.
  assert (length (merge_sort keyOrder (map_to_list x.(Metadata)))
          = size x.(Metadata)) as Hsize
    by (by rewrite merge_sort_Permutation, length_map_to_list).
  rewrite Hsize in Hlen.
  unfold jsonMember. rewrite !length_app_string.
  change (String.length "{") with 1%nat.
  change (String.length ",") with 1%nat.
  change (String.length "}") with 1%nat.
  change (String.length ":") with 1%nat.
  lia.
Qed.

Lemma decodeInstance_members (x : ServiceInstance) :
  - 2 ^ 63 ≤ x.(Port) < 2 ^ 63 →
  decodeInstance
    (JObject
       [("Id", JString x.(Id));
        ("ServiceName", JString x.(ServiceName));
        ("Host", JString x.(Host));
        ("Port", JNumber (strconv_Itoa x.(Port)));
        ("Healthy", JBool x.(Healthy));
        ("Metadata",
         JObject ((λ kv, (kv.1, JString kv.2))
                  <$> merge_sort keyOrder (map_to_list x.(Metadata))))])
  = Ok x.
Proof.
  intros Hport. unfold decodeInstance. cbn [foldl].
  unfold storeMember at 6. cbn [fst snd storeString].
  change (foldName "Id") with "ID". rewrite decide_True by done.
  unfold storeMember at 5. cbn [fst snd storeString Id ServiceName Host Port Metadata Healthy].
  change (foldName "ServiceName") with "SERVICENAME".
  rewrite decide_False by done. rewrite decide_True by done.
  unfold storeMember at 4. cbn [fst snd storeString Id ServiceName Host Port Metadata Healthy].
  change (foldName "Host") with "HOST".
  rewrite !(decide_False (P := "HOST" = _)) by done.
  rewrite decide_True by done.
  unfold storeMember at 3. cbn [fst snd storeInt Id ServiceName Host Port Metadata Healthy].
  change (foldName "Port") with "PORT".
  rewrite !(decide_False (P := "PORT" = _)) by done.
  rewrite decide_True by done.
  rewrite parseInt_Itoa. rewrite decide_True by done.
  unfold storeMember at 2. cbn [fst snd storeBool Id ServiceName Host Port Metadata Healthy].
  change (foldName "Healthy") with "HEALTHY".
  rewrite !(decide_False (P := "HEALTHY" = _)) by done.
  rewrite decide_True by done.
  unfold storeMember at 1. cbn [fst snd storeMap Id ServiceName Host Port Metadata Healthy].
  change (foldName "Metadata") with "METADATA".
  rewrite !(decide_False (P := "METADATA" = _)) by done.
  rewrite decide_True by done.
  change (Metadata zeroInstance) with (∅ : gmap string string).
  rewrite storeMap_members, foldl_insert_sorted.
  by destruct x.
Qed.

(** The reference codec decodes the text of an instance to the instance,
    when the strings of the instance are UTF-8 and its port is a 64-bit
    integer. *)
Theorem refJSON_roundtrips (x : ServiceInstance) :
  validInstance x → @json_roundtrips refJSON x.
Proof.
  intros Hx c Hc. simpl in Hc |- *.
  pose proof (refMarshal_length x c Hc) as Hlen.
  unfold refUnmarshal, refParse.
  replace (Datatypes.S (String.length c))
    with (8 + (String.length c - 7))%nat by lia.
  rewrite (readValue_refMarshal x c _ Hx Hc) by lia.
  cbn [mbind option_bind]. change (skipSpace "") with "".
  rewrite decide_True by done.
  apply decodeInstance_members. apply Hx.
Qed.

End ReferenceCodec.

(** ** Runs on concrete clients *)

Section Runs.
#[local] Existing Instance refJSON.
#[local] Existing Instance FileStore_configuration.
#[local] Existing Instance FanOut_dispatcher.

(** Settles [validInstance] of a concrete instance by evaluation. *)
Ltac valid_by_run :=
  do 4 (split; [by vm_compute|]);
  first [ apply map_Forall_empty
        | apply map_Forall_singleton; by vm_compute ].

Lemma greeter_roundtrips : json_roundtrips greeter.
Proof. apply refJSON_roundtrips. valid_by_run. Qed.


Lemma greeterMoved_roundtrips : json_roundtrips greeterMoved.
Proof. apply refJSON_roundtrips. valid_by_run. Qed.






Lemma GetInstances_skips_bad_records_witness :
  elems (GetInstances "Greeter" damagedClient) = [greeter2; greeter]
  ∧ GetProperties "locked" "Greeter" damagedStore
    = Err (errorString "StoreIOError")
  ∧ GetProperties "broken" "Greeter" damagedStore = Ok "{not json"
  ∧ json_Unmarshal "{not json"
    = Err (errorString "invalid character in JSON input")
  ∧ GetInstances "Missing" damagedClient = make_slice.
Proof.
  destruct (GetInstances_skips_bad_records "Greeter" damagedClient)
    as (_ & _ & _ & Hvalid & _).
  destruct (GetInstances_skips_bad_records "Missing" damagedClient)
    as (_ & _ & Hempty & _).
  split; [rewrite (Hvalid _ eq_refl); vm_compute; reflexivity|].
  do 3 (split; [by vm_compute|]).
  apply Hempty. vm_compute. reflexivity.
Defined.

Lemma getServiceInstanceId_key_witness :
  getServiceInstanceId exampleInstance = "10.0.0.1.8080"
  ∧ getServiceInstanceId greeter2 = "node-2"
  ∧ (∃ c, json_Marshal exampleInstance = Ok c
          ∧ PublishConfig "10.0.0.1.8080" "Echo" c (emptyStore registryRoot)
            = (None, (Register exampleInstance freshClient).2.(dynamicConfiguration)))
  ∧ RemoveConfig "h1.20880" "Greeter" busyClient.(dynamicConfiguration)
    = (None, (Unregister greeter busyClient).2.(dynamicConfiguration)).
Proof.
  destruct (getServiceInstanceId_key exampleInstance freshClient)
    as (_ & _ & Hexample & Hpublish & _).
  destruct (getServiceInstanceId_key greeter2 freshClient)
    as (_ & Hid & _).
  destruct (getServiceInstanceId_key greeter busyClient)
    as (_ & _ & _ & _ & Hremove).
  split; [apply Hexample; reflexivity|].
  split; [apply Hid; by vm_compute|].
  split.
  - apply (Hpublish (Register exampleInstance freshClient).2).
    vm_compute. reflexivity.
  - apply (Hremove (Unregister greeter busyClient).2). vm_compute. reflexivity.
Defined.

Lemma Register_failure_keeps_fileMap_witness :
  (Register greeter stuckClient).1
  = Some (withStack (errorString "StoreIOError"))
  ∧ (Register greeter stuckClient).2.(fileMap) = stuckClient.(fileMap).
Proof.
  split; [by vm_compute|].
  apply (Register_failure_keeps_fileMap greeter stuckClient
           (withStack (errorString "StoreIOError"))).
  by vm_compute.
Defined.

Lemma newFileSystemServiceDiscovery_invalid_config_witness :
  newFileSystemServiceDiscovery "file" "backendB" freshProcess
  = (Err (errorString
            "could not init the instance because the config is invalid"),
     freshProcess).
Proof.
  apply (newFileSystemServiceDiscovery_invalid_config "file" "backendB" freshProcess).
  - by vm_compute.
  - intros sdc Hsdc. by vm_compute in Hsdc.
Defined.

Lemma Register_twice_overwrites_witness :
  filter (λ y, getServiceInstanceId y = "h1.20880")
         (elems (GetInstances "Greeter"
                   (Register greeterMoved (Register greeter freshClient).2).2))
  = [greeterMoved].
Proof.
  destruct (Register_twice_overwrites greeter greeterMoved freshClient
              (Register greeter freshClient).2
              (Register greeterMoved (Register greeter freshClient).2).2)
    as [_ Hone].
  - apply keyed_by_id_empty.
  - apply greeter_roundtrips.
  - apply greeterMoved_roundtrips.
  - reflexivity.
  - reflexivity.
  - vm_compute. reflexivity.
  - vm_compute. reflexivity.
  - exact Hone.
Defined.

(** The scenario of the spec: an instance without an id is registered; the
    services then are [Greeter] alone, and its instances one instance, with
    the derived id [h1.20880]; once the instance is unregistered, the
    instances of [Greeter] are the empty (not nil) slice. *)
Theorem register_query_unregister_scenario :
  let registered := Register greeter freshClient in
  let unregistered := Unregister greeter registered.2 in
  registered.1 = None
  ∧ elements (GetServices registered.2) = ["Greeter"]
  ∧ getServiceInstanceId <$> elems (GetInstances "Greeter" registered.2)
    = ["h1.20880"]
  ∧ unregistered.1 = None
  ∧ GetInstances "Greeter" unregistered.2 = make_slice.
Proof. vm_compute. repeat split; reflexivity. Qed.

Lemma Update_is_Register_witness :
  Update greeterMoved (Register greeter freshClient).2
  = Register greeterMoved (Register greeter freshClient).2
  ∧ (∃ c, json_Marshal greeterMoved = Ok c
          ∧ (Update greeterMoved (Register greeter freshClient).2).2
              .(dynamicConfiguration).(fs_files) !! ("Greeter", "h1.20880")
            = Some c).
Proof.
  destruct (Update_is_Register greeterMoved (Register greeter freshClient).2)
    as (Hsame & Hpublish & _).
  split; [exact Hsame|].
  destruct (Hpublish (Update greeterMoved (Register greeter freshClient).2).2)
    as (c & Hc & _); [vm_compute; reflexivity|].
  exists c. split; [exact Hc|].
  vm_compute in Hc. injection Hc as <-. vm_compute. reflexivity.
Defined.

(** *** Subscribing, then registering *)

(** C2, as stated, fails: the listener is handed to [AddListener], the
    instance is then registered successfully under the listener's service
    name and is in the current instance list, and yet the listener's
    callback has not been invoked, whether the dispatcher knows the listener
    or not. *)
Lemma AddListener_then_Register_no_callback :
  let subscribed := (exec (CallAddListener greeterListener)
                          (freshClient, greeterDispatcher)).2 in
  let registered := exec (CallRegister greeter) subscribed in
  let unknown := run [CallAddListener greeterListener; CallRegister greeter]
                     (freshClient, idleDispatcher) in
  registered.1 = None
  ∧ elems (GetInstances "Greeter" registered.2.1) = [greeter]
  ∧ invocations greeterListener registered.2.2 = []
  ∧ ¬ (1 ≤ length (invocations greeterListener registered.2.2))%nat
  ∧ invocations greeterListener unknown.2 = [].
Proof.
  vm_compute. repeat split; try reflexivity. lia.
Qed.

Lemma only_dispatch_calls_notify_witness :
  (run [CallAddListener greeterListener; CallRegister greeter;
        CallUpdate greeter; CallUnregister greeter]
       (freshClient, greeterDispatcher)).2 = greeterDispatcher
  ∧ AddListener greeterListener busyClient = (None, busyClient)
  ∧ invocations greeterListener
      (DispatchEventByServiceName "Greeter" busyClient greeterDispatcher).2
    = [ {| EventServiceName := "Greeter";
           EventInstances := mk_slice [greeter2; greeter] |} ].
Proof.
  destruct (only_dispatch_calls_notify
              [CallAddListener greeterListener; CallRegister greeter;
               CallUpdate greeter; CallUnregister greeter]
              freshClient greeterDispatcher greeterListener "Greeter")
    as (Hquiet & _).
  { repeat constructor. }
  destruct (only_dispatch_calls_notify [] busyClient greeterDispatcher
              greeterListener "Greeter") as (_ & Hdrop & Hdispatch).
  { constructor. }
  split; [exact Hquiet|]. split; [exact Hdrop|].
  rewrite Hdispatch. vm_compute. reflexivity.
Defined.

(** *** The cache is never filled *)

(** C1 fails on the code: on a process where the backend is configured and
    the store factory answers, the first call succeeds and leaves the cache
    without an entry for the name; the second call with the same name
    succeeds too, answers a different client and has called the factory a
    second time. *)
Theorem newFileSystemServiceDiscovery_never_caches :
  let first := newFileSystemServiceDiscovery "file" "backendA" freshProcess in
  let second := newFileSystemServiceDiscovery "file" "backendA" first.2 in
  first.1 = Ok 0%nat
  ∧ first.2.(instanceMap) !! "backendA" = None
  ∧ first.2.(constructions) = [registryRoot]
  ∧ second.1 = Ok 1%nat
  ∧ second.2.(instanceMap) !! "backendA" = None
  ∧ second.2.(constructions) = [registryRoot; registryRoot]
  ∧ length second.2.(heap) = 2%nat.
Proof. vm_compute. repeat split; reflexivity. Qed.

(** *** Destroy and a store that fails to close *)

(** C3 fails on the code in its second half: on a client whose store fails
    to close and whose tracked file cannot be removed, both failures are
    dropped and [Destroy] answers [nil]. *)
Theorem Destroy_drops_close_failure :
  (Close stuckClient.(dynamicConfiguration)).1 = Some closeError
  ∧ (os_Remove "/home/dubbo/.dubbo/registry/Greeter/h1.20880"
               (Close stuckClient.(dynamicConfiguration)).2).1
    = Some (errorString "remove: permission denied")
  ∧ (Destroy stuckClient).1 = None.
Proof. vm_compute. repeat split; reflexivity. Qed.

(** *** The tracking map after Unregister *)

(** C4 fails on the code for an instance without an id: registering the
    instance tracks its file under the derived id [h1.20880]; unregistering
    it succeeds, removes the record from the store, and leaves the tracking
    entry where it was, because the entry deleted is the one under the
    empty id. *)
Theorem Unregister_keeps_tracking_entry :
  let registered := Register greeter freshClient in
  let unregistered := Unregister greeter registered.2 in
  registered.1 = None
  ∧ registered.2.(fileMap) !! "h1.20880"
    = Some "/home/dubbo/.dubbo/registry/Greeter/h1.20880"
  ∧ unregistered.1 = None
  ∧ unregistered.2.(dynamicConfiguration).(fs_files)
      !! ("Greeter", "h1.20880") = None
  ∧ unregistered.2.(fileMap) !! "h1.20880"
    = Some "/home/dubbo/.dubbo/registry/Greeter/h1.20880"
  ∧ unregistered.2.(fileMap) = registered.2.(fileMap).
Proof. vm_compute. repeat split; reflexivity. Qed.

End Runs.

(** ** More on the metric configuration *)

Section MetricConfigFacts.

Lemma length_zero_empty (s : string) :
  (Z.of_nat (String.length s) <=? 0) = true ↔ s = "".
Proof.
  destruct s as [|c s]; simpl; [done|].
  split; [|done]. intros Hle. apply Z.leb_le in Hle. lia.
Qed.

(** X6: [GetMetricConfig] never answers nil: it answers the provider's
    metric configuration when there is one, the consumer's only when the
    provider has none, and otherwise an empty configuration, on which every
    accessor answers its default. *)
Theorem GetMetricConfig_never_nil (provider consumer : option MetricConfig) :
  ∃ mc, GetMetricConfig provider consumer = Some mc
    ∧ (∀ m, provider = Some m → mc = m)
    ∧ (∀ m, provider = None → consumer = Some m → mc = m)
    ∧ (provider = None → consumer = None →
       GetGlobalInterval mc = 60 * Second
       ∧ (∀ metricLevel, GetLevelInterval mc metricLevel = 60 * Second)
       ∧ GetMaxSubCategoryCount mc = 20
       ∧ GetMaxMetricCountPerRegistry mc = 5000
       ∧ GetMaxCompassErrorCodeCount mc = 100
       ∧ GetMaxCompassAddonCount mc = 20
       ∧ (∀ key, GetMetricManagerName key mc = key)).
Proof.
  destruct provider as [p|]; [|destruct consumer as [c|]].
  - exists p. repeat split; (done || by intros ? [= ->]).
  - exists c. repeat split; (done || by intros ? ? [= ->]).
  - exists zeroMetricConfig. repeat split; done.
Qed.

Lemma GetMetricConfig_never_nil_witness :
  (∃ mc, GetMetricConfig None None = Some mc
         ∧ GetGlobalInterval mc = 60 * Second
         ∧ GetMaxMetricCountPerRegistry mc = 5000)
  ∧ GetMetricConfig (Some fiveSecondConfig) (Some oneSecondConfig)
    = Some fiveSecondConfig
  ∧ GetMetricConfig None (Some oneSecondConfig) = Some oneSecondConfig.
Proof.
  destruct (GetMetricConfig_never_nil None None)
    as (mc & Hmc & _ & _ & Hdefaults).
  destruct (Hdefaults eq_refl eq_refl) as (Hglobal & _ & _ & Hcount & _).
  destruct (GetMetricConfig_never_nil (Some fiveSecondConfig)
                                      (Some oneSecondConfig))
    as (mp & Hmp & Hprovider & _).
  destruct (GetMetricConfig_never_nil None (Some oneSecondConfig))
    as (mcons & Hmcons & _ & Hconsumer & _).
  split; [by exists mc|]. split.
  - by rewrite Hmp, (Hprovider fiveSecondConfig eq_refl).
  - by rewrite Hmcons, (Hconsumer oneSecondConfig eq_refl eq_refl).
Defined.

(** X7: given a non-empty default key, [GetMetricManagerName] never answers
    the empty name: it answers the configured manager when one is
    configured, and the default key exactly when none is. *)
Theorem GetMetricManagerName_never_empty (key : string) (mc : MetricConfig) :
  key ≠ "" →
  GetMetricManagerName key mc ≠ ""
  ∧ (mc.(Manager) ≠ "" → GetMetricManagerName key mc = mc.(Manager))
  ∧ (mc.(Manager) = "" → GetMetricManagerName key mc = key).
Proof.
  intros Hkey. unfold GetMetricManagerName.
  destruct (Z.of_nat (String.length (Manager mc)) <=? 0) eqn:Hlen.
  - apply length_zero_empty in Hlen. by rewrite Hlen.
  - assert (Manager mc ≠ "") as Hne.
    { intros Hempty. apply length_zero_empty in Hempty. congruence. }
    done.
Qed.

Lemma GetMetricManagerName_never_empty_witness :
  GetMetricManagerName "default" namedManagerConfig = "prometheus"
  ∧ GetMetricManagerName "default" zeroMetricConfig = "default".
Proof.
  destruct (GetMetricManagerName_never_empty "default" namedManagerConfig)
    as (_ & Hnamed & _); [done|].
  destruct (GetMetricManagerName_never_empty "default" zeroMetricConfig)
    as (_ & _ & Hzero); [done|].
  split; [by apply Hnamed | by apply Hzero].
Defined.

End MetricConfigFacts.

(** ** The keys of instances *)

Section KeyFacts.
Implicit Types (x y : ServiceInstance).

Lemma app_not_empty (a : string) (c : ascii) (b : string) :
  a +:+ String c b ≠ "".
Proof. by destruct a. Qed.

Lemma getServiceInstanceId_not_empty x : getServiceInstanceId x ≠ "".
Proof.
  unfold getServiceInstanceId. case_decide as Hid; [|done].
  apply app_not_empty.
Qed.

(** X8: the key of an instance is never the empty string, and writing the
    key into the id field changes neither the key nor the service name:
    the instance with its derived id made explicit is stored, tracked and
    removed under the same key and group. *)
Theorem getServiceInstanceId_stable x :
  getServiceInstanceId x ≠ ""
  ∧ getServiceInstanceId (withDerivedId x) = getServiceInstanceId x
  ∧ getServiceName (withDerivedId x) = getServiceName x
  ∧ withDerivedId (withDerivedId x) = withDerivedId x
  ∧ (x.(Id) ≠ "" → withDerivedId x = x).
Proof.
  pose proof (getServiceInstanceId_not_empty x) as Hne.
  assert (getServiceInstanceId (withDerivedId x) = getServiceInstanceId x)
    as Hsame.
  { unfold getServiceInstanceId at 1. simpl. by rewrite decide_False. }
  split; [done|]. split; [done|]. split; [done|]. split.
  - unfold withDerivedId at 1. rewrite Hsame. done.
  - intros Hid. unfold withDerivedId, getServiceInstanceId.
    rewrite decide_False by done. by destruct x.
Qed.

Lemma hasDot_app (a b : string) : hasDot (a +:+ b) = hasDot a || hasDot b.
Proof.
  induction a as [|c a IH]; [done|]. rewrite app_String. simpl.
  by case_decide.
Qed.

Lemma pretty_N_char_not_dot (d : N) : pretty_N_char d ≠ "."%char.
Proof. unfold pretty_N_char. by repeat case_match. Qed.

Lemma hasDot_pretty_N_go (n : N) (s : string) :
  hasDot (pretty_N_go n s) = hasDot s.
Proof.
  revert s. induction (N.lt_wf_0 n) as [n _ IH]; intros s.
  destruct (decide (n = 0)%N) as [->|Hn]; [done|].
  rewrite pretty_N_go_step by lia.
  rewrite IH by (apply N.div_lt; lia). simpl.
  rewrite decide_False; [done|]. apply pretty_N_char_not_dot.
Qed.

(** The decimal rendering of an integer holds no dot. *)
Lemma hasDot_Itoa (n : Z) : hasDot (strconv_Itoa n) = false.
Proof.
  unfold strconv_Itoa, pretty, pretty_Z. destruct n as [|p|p]; [done| |].
  - unfold pretty, pretty_positive, pretty, pretty_N.
    rewrite decide_False by done. apply hasDot_pretty_N_go.
  - unfold pretty, pretty_positive, pretty, pretty_N.
    rewrite decide_False by done. rewrite hasDot_app, hasDot_pretty_N_go.
    done.
Qed.

(** A text is split in one way only into a head, a dot and a dot-free
    tail. *)
Lemma split_at_last_dot (h1 h2 t1 t2 : string) :
  hasDot t1 = false → hasDot t2 = false →
  h1 +:+ "." +:+ t1 = h2 +:+ "." +:+ t2 → h1 = h2 ∧ t1 = t2.
Proof.
  intros Ht1 Ht2. revert h2.
  induction h1 as [|c h1 IH]; intros [|d h2] Heq.
  - by injection Heq.
  - rewrite app_Empty, !app_String in Heq. injection Heq as Hd Ht.
    change (t1 = h2 +:+ "." +:+ t2) in Ht.
    rewrite Ht, hasDot_app in Ht1. simpl in Ht1.
    by rewrite orb_true_r in Ht1.
  - rewrite app_Empty, !app_String in Heq. injection Heq as Hc Ht.
    change (h1 +:+ "." +:+ t1 = t2) in Ht.
    rewrite <- Ht, hasDot_app in Ht2. simpl in Ht2.
    by rewrite orb_true_r in Ht2.
  - rewrite !app_String in Heq. injection Heq as -> Heq.
    destruct (IH h2 Heq) as [-> ->]. done.
Qed.

(** X9: two instances without an id have the same key exactly when they
    have the same host and the same port: the keys derived from distinct
    addresses never collide. *)
Theorem getServiceInstanceId_injective x y :
  x.(Id) = "" → y.(Id) = "" →
  (getServiceInstanceId x = getServiceInstanceId y
   ↔ x.(Host) = y.(Host) ∧ x.(Port) = y.(Port)).
Proof.
  intros Hx Hy. unfold getServiceInstanceId.
  rewrite !decide_True by done. split.
  - intros Heq.
    apply split_at_last_dot in Heq as [Hhost Hport];
      [|apply hasDot_Itoa..].
    split; [done|]. unfold strconv_Itoa in Hport. by apply (inj pretty).
  - by intros [-> ->].
Qed.

End KeyFacts.

(** ** The tracking map under sequences of calls *)

Section TrackingFacts.
Context `{JSON} {S : Type} `{FileSystemDynamicConfiguration S}.
Implicit Types (fssd : fileSystemServiceDiscovery S) (x : ServiceInstance).

(** X10: when [Unregister] answers an error, the error is the one
    [RemoveConfig] answered for the instance's key and service name, as it
    is (not wrapped), and the tracking map is as before. *)
Theorem Unregister_failure_keeps_fileMap x fssd err :
  (Unregister x fssd).1 = Some err →
  (RemoveConfig (getServiceInstanceId x) (getServiceName x)
                fssd.(dynamicConfiguration)).1 = Some err
  ∧ (Unregister x fssd).2.(fileMap) = fssd.(fileMap)
  ∧ (Unregister x fssd).2.(rootPath) = fssd.(rootPath).
Proof.
  unfold Unregister. cbv zeta.
  destruct (RemoveConfig _ _ _) as [[cause|] dc]; simpl; [|done].
  by intros [= <-].
Qed.

(** X11: a successful [Register] followed by a successful [Unregister] of
    the same instance, whose key was not tracked before, gives the tracking
    map back as it was when the instance has an id; when it has none, the
    entry that [Register] made under the derived id is still there. *)
Theorem Register_Unregister_fileMap x fssd fssd1 fssd2 :
  fssd.(fileMap) !! getServiceInstanceId x = None →
  Register x fssd = (None, fssd1) →
  Unregister x fssd1 = (None, fssd2) →
  (x.(Id) ≠ "" → fssd2.(fileMap) = fssd.(fileMap))
  ∧ (x.(Id) = "" →
     fssd2.(fileMap) !! getServiceInstanceId x
     = Some (GetPath (getServiceInstanceId x) (getServiceName x)
                     fssd1.(dynamicConfiguration))).
Proof.
  intros Hfresh Hreg Hun.
  apply Register_success in Hreg as (_ & _ & _ & _ & Hmap1).
  apply Unregister_success in Hun as (_ & _ & Hmap2).
  rewrite Hmap2, Hmap1. split.
  - intros Hid.
    assert (getServiceInstanceId x = x.(Id)) as Hkey
      by (unfold getServiceInstanceId; by rewrite decide_False).
    rewrite Hkey in *. rewrite delete_insert_eq. by apply delete_id.
  - intros Hid. rewrite Hid.
    rewrite lookup_delete_ne by (by apply not_eq_sym, getServiceInstanceId_not_empty).
    apply lookup_insert_eq.
Qed.

Lemma Register_fileMap_dom x fssd :
  dom (Register x fssd).2.(fileMap)
  ⊆ dom fssd.(fileMap) ∪ {[ getServiceInstanceId x ]}
  ∧ (Register x fssd).2.(rootPath) = fssd.(rootPath).
Proof.
  unfold Register. cbv zeta.
  destruct (getContent x) as [c|]; simpl; [|split; [apply union_subseteq_l|done]].
  destruct (PublishConfig _ _ c _) as [[err|] dc]; simpl.
  - split; [apply union_subseteq_l|done].
  - split; [|done]. rewrite dom_insert_L. apply union_least.
    + apply union_subseteq_r.
    + apply union_subseteq_l.
Qed.

Lemma Unregister_fileMap_dom x fssd :
  dom (Unregister x fssd).2.(fileMap) ⊆ dom fssd.(fileMap)
  ∧ (Unregister x fssd).2.(rootPath) = fssd.(rootPath).
Proof.
  unfold Unregister. cbv zeta.
  destruct (RemoveConfig _ _ _) as [[err|] dc]; simpl; [done|].
  split; [|done]. rewrite dom_delete_L. apply subseteq_difference_l. done.
Qed.

Lemma registered_cons (c : Call) (cs : list Call) :
  registered (c :: cs) = registered [c] ++ registered cs.
Proof. by destruct c. Qed.

Section WithDispatcher.
Context {D : Type} `{EventDispatcher D}.

Lemma exec_fileMap_dom (c : Call) fssd (d : D) :
  dom (exec c (fssd, d)).2.1.(fileMap)
  ⊆ dom fssd.(fileMap)
    ∪ list_to_set (getServiceInstanceId <$> registered [c])
  ∧ (exec c (fssd, d)).2.1.(rootPath) = fssd.(rootPath).
Proof.
  destruct c as [i|i|i|l|n]; simpl.
  - destruct (Register_fileMap_dom i fssd) as [Hdom Hroot].
    split; [|done]. etrans; [exact Hdom|].
    apply union_mono_l. by rewrite union_empty_r_L.
  - destruct (Register_fileMap_dom i fssd) as [Hdom Hroot].
    split; [|done]. etrans; [exact Hdom|].
    apply union_mono_l. by rewrite union_empty_r_L.
  - destruct (Unregister_fileMap_dom i fssd) as [Hdom Hroot].
    split; [|done]. etrans; [exact Hdom|]. apply union_subseteq_l.
  - split; [apply union_subseteq_l|done].
  - split; [apply union_subseteq_l|done].
Qed.

(** X12: whatever sequence of calls runs on a client, its root path stays
    as it was, and every key its tracking map holds afterwards was tracked
    before or is the key of an instance that the sequence registered or
    updated: the client never tracks a file for an instance it was not
    asked to register. *)
Theorem run_tracks_registered_only (cs : list Call) fssd (d : D) :
  dom (run cs (fssd, d)).1.(fileMap)
  ⊆ dom fssd.(fileMap)
    ∪ list_to_set (getServiceInstanceId <$> registered cs)
  ∧ (run cs (fssd, d)).1.(rootPath) = fssd.(rootPath).
Proof.
  revert fssd d. induction cs as [|c cs IH]; intros fssd d.
  - split; [apply union_subseteq_l|done].
  - change (run (c :: cs) (fssd, d)) with (run cs (exec c (fssd, d)).2).
    destruct (exec_fileMap_dom c fssd d) as [Hdom Hroot].
    destruct (exec c (fssd, d)) as [err [fssd' d']].
    cbn [fst snd] in Hdom, Hroot |- *.
    destruct (IH fssd' d') as [Hdom' Hroot'].
    split; [|congruence].
    rewrite (registered_cons c cs), fmap_app, list_to_set_app_L.
    intros k Hk. pose proof (Hdom' k Hk) as Hk'.
    apply elem_of_union in Hk' as [Hk'|Hk'].
    + pose proof (Hdom k Hk') as Hk''.
      apply elem_of_union in Hk'' as [Hk''|Hk''].
      * apply elem_of_union. by left.
      * apply elem_of_union. right. apply elem_of_union. by left.
    + apply elem_of_union. right. apply elem_of_union. by right.
Qed.

End WithDispatcher.
End TrackingFacts.

(** ** What the constructor leaves behind *)

Section ConstructorShape.
Context `{JSON} {S : Type} `{FileSystemDynamicConfiguration S}.
Variable FILE_KEY : string.

Lemma attachListener_keeps (l : list ServiceInstance)
    (sd : fileSystemServiceDiscovery S) :
  (foldl attachListener sd l).(rootPath) = sd.(rootPath)
  ∧ (foldl attachListener sd l).(fileMap) = sd.(fileMap).
Proof.
  revert sd. induction l as [|i l IH]; intros sd; [done|]. simpl.
  destruct (IH (attachListener sd i)) as [-> ->]. done.
Qed.

(** Attaching the listeners touches the store alone. *)
Lemma attachListeners_keeps (sd : fileSystemServiceDiscovery S) :
  (attachListeners sd).(rootPath) = sd.(rootPath)
  ∧ (attachListeners sd).(fileMap) = sd.(fileMap).
Proof.
  unfold attachListeners. generalize (elements (GetServices sd)).
  intros services. revert sd.
  induction services as [|v services IH]; intros sd; [done|]. simpl.
  destruct (IH (foldl attachListener sd (elems (GetInstances v sd))))
    as [-> ->].
  apply attachListener_keeps.
Qed.

(** X13: construction is all or nothing.  When the constructor answers an
    error, no client was allocated, no shutdown callback was registered and
    the cache is as before; and the error is the configuration error, or
    the error of the home directory under [WithStack], or, when the store
    factory failed, a message that names the backend (the factory's own
    error is dropped). *)
Theorem newFileSystemServiceDiscovery_error (name : string) (w : Process S)
    (err : error) :
  (newFileSystemServiceDiscovery FILE_KEY name w).1 = Err err →
  let w' := (newFileSystemServiceDiscovery FILE_KEY name w).2 in
  w'.(heap) = w.(heap)
  ∧ w'.(shutdownCallbacks) = w.(shutdownCallbacks)
  ∧ w'.(instanceMap) = w.(instanceMap)
  ∧ w.(instanceMap) !! name = None
  ∧ (err = errorString
             "could not init the instance because the config is invalid"
     ∨ (∃ cause, w.(home) = Err cause ∧ err = withStack cause)
     ∨ (∃ rp cause,
          w.(home) = Ok rp
          ∧ w.(configCenterFactory) (path_Join [rp; ".dubbo"; "registry"])
            = Err cause
          ∧ err = errorString
                    ("could not find the config for name: " +:+ name))).
Proof.
  unfold newFileSystemServiceDiscovery.
  destruct (instanceMap w !! name) as [cached|] eqn:Hmiss; [done|].
  destruct (baseConfig w !! name) as [sdc|].
  - case_decide.
    + simpl. intros [= <-]. repeat split; try done. by left.
    + destruct (home w) as [rp|cause] eqn:Hhome.
      * destruct (configCenterFactory w _) as [c|cause] eqn:Hfactory; [done|].
        simpl. intros [= <-]. repeat split; try done.
        right. right. by exists rp, cause.
      * simpl. intros [= <-]. repeat split; try done.
        right. left. by exists cause.
  - simpl. intros [= <-]. repeat split; try done. by left.
Qed.

(** X14: a construction that succeeds without a cached client has found a
    configuration for the name whose protocol is the file backend's, and
    leaves exactly one more client, at the address it answers: a client
    with an empty tracking map, rooted at [.dubbo/registry] under the home
    directory, for which exactly one shutdown callback was registered; the
    clients allocated before are untouched. *)
Theorem newFileSystemServiceDiscovery_success (name : string) (w : Process S)
    (address : nat) :
  w.(instanceMap) !! name = None →
  (newFileSystemServiceDiscovery FILE_KEY name w).1 = Ok address →
  let w' := (newFileSystemServiceDiscovery FILE_KEY name w).2 in
  address = length w.(heap)
  ∧ (∃ sdc, w.(baseConfig) !! name = Some sdc ∧ sdc.(Protocol) = FILE_KEY)
  ∧ (∃ rp sd,
       w.(home) = Ok rp
       ∧ w'.(heap) = w.(heap) ++ [sd]
       ∧ w'.(heap) !! address = Some sd
       ∧ sd.(fileMap) = ∅
       ∧ sd.(rootPath) = path_Join [rp; ".dubbo"; "registry"])
  ∧ w'.(shutdownCallbacks) = w.(shutdownCallbacks) ++ [address]
  ∧ (∀ a sd, w.(heap) !! a = Some sd → w'.(heap) !! a = Some sd).
Proof.
  unfold newFileSystemServiceDiscovery. intros -> Hok.
  destruct (baseConfig w !! name) as [sdc|]; [|done].
  case_decide as Hprotocol; [done|].
  destruct (home w) as [rp|]; [|done].
  destruct (configCenterFactory w _) as [c|]; [|done].
  cbn [fst snd heap shutdownCallbacks] in Hok |- *. injection Hok as <-.
  split; [done|]. split.
  { exists sdc. split; [done|].
    by destruct (decide (Protocol sdc = FILE_KEY)). }
  split.
  { destruct (attachListeners_keeps
                {| dynamicConfiguration := c;
                   rootPath := path_Join [rp; ".dubbo"; "registry"];
                   fileMap := ∅ |}) as [Hroot Hmap].
    eexists rp, _. split; [done|]. split; [done|]. split.
    - rewrite lookup_app_r by done. by rewrite Nat.sub_diag.
    - by rewrite Hroot, Hmap. }
  split; [done|].
  intros a sd Ha. by apply lookup_app_l_Some.
Qed.

End ConstructorShape.

(** ** Shutdown and dispatch *)

Section ShutdownFacts.
Context `{JSON} {S : Type} `{FileSystemDynamicConfiguration S}.
Implicit Types (fssd : fileSystemServiceDiscovery S) (x : ServiceInstance).

(** X15: on a client that tracks no file, [Destroy] only closes the store;
    after one successful [Register] on such a client, [Destroy] closes the
    store and then removes one file, the one at the path that [Register]
    recorded for the instance's key and service name.  Either way it
    answers [nil] and keeps the tracking map. *)
Theorem Destroy_after_Register x fssd fssd1 :
  fssd.(fileMap) = ∅ →
  Register x fssd = (None, fssd1) →
  (Destroy fssd).2.(dynamicConfiguration)
  = (Close fssd.(dynamicConfiguration)).2
  ∧ (Destroy fssd1).2.(dynamicConfiguration)
    = (os_Remove (GetPath (getServiceInstanceId x) (getServiceName x)
                          fssd1.(dynamicConfiguration))
                 (Close fssd1.(dynamicConfiguration)).2).2
  ∧ (Destroy fssd1).1 = None
  ∧ (Destroy fssd1).2.(fileMap) = fssd1.(fileMap).
Proof.
  intros Hempty Hreg.
  apply Register_success in Hreg as (_ & _ & _ & _ & Hmap).
  unfold Destroy. simpl. rewrite Hmap, Hempty.
  rewrite map_to_list_empty, insert_empty, map_to_list_singleton. done.
Qed.

Section DispatchFacts.
Context {D : Type} `{EventDispatcher D}.

(** X16: dispatching by service name is dispatching the current instances
    of that name.  The dispatch calls answer [nil] whatever the dispatcher
    does, and the event dispatched by name carries the name and a list that
    is never nil: for a service whose keys cannot be listed, or that has no
    key, the dispatcher still receives an event, with the empty list. *)
Theorem DispatchEventByServiceName_event (serviceName : string) fssd (d : D)
    (instances : slice ServiceInstance) :
  DispatchEventByServiceName serviceName fssd d
  = DispatchEventForInstances serviceName (GetInstances serviceName fssd) d
  ∧ (DispatchEventForInstances serviceName instances d).1 = None
  ∧ (DispatchEventForInstances serviceName instances d).2
    = Dispatch {| EventServiceName := serviceName;
                  EventInstances := instances |} d
  ∧ (∃ event,
       (DispatchEventByServiceName serviceName fssd d).2 = Dispatch event d
       ∧ event.(EventServiceName) = serviceName
       ∧ is_nil event.(EventInstances) = false
       ∧ (∀ err, GetConfigKeysByGroup serviceName fssd.(dynamicConfiguration)
                 = Err err → event.(EventInstances) = make_slice)
       ∧ (GetConfigKeysByGroup serviceName fssd.(dynamicConfiguration)
          = Ok ∅ → event.(EventInstances) = make_slice)).
Proof.
  split; [done|]. split; [done|]. split; [done|].
  exists (NewServiceInstancesChangedEvent serviceName
            (GetInstances serviceName fssd)).
  split; [done|]. split; [done|]. simpl. unfold GetInstances.
  destruct (GetConfigKeysByGroup serviceName _) as [keys|err] eqn:Hkeys.
  - split; [by apply collect_not_nil|]. split; [done|].
    intros [= ->]. by rewrite elements_empty.
  - split; [done|]. split; [done|]. done.
Qed.

End DispatchFacts.
End ShutdownFacts.

(** ** More runs on concrete clients *)

Section MoreRuns.
#[local] Existing Instance refJSON.
#[local] Existing Instance FileStore_configuration.
#[local] Existing Instance FanOut_dispatcher.

Lemma getServiceInstanceId_injective_witness :
  getServiceInstanceId greeter = getServiceInstanceId greeterMoved
  ∧ getServiceInstanceId greeter ≠ getServiceInstanceId exampleInstance.
Proof.
  split.
  - apply (getServiceInstanceId_injective greeter greeterMoved);
      [reflexivity..|]. split; reflexivity.
  - intros Hsame.
    apply (getServiceInstanceId_injective greeter exampleInstance) in Hsame
      as [Hhost _]; [|reflexivity..].
    vm_compute in Hhost. discriminate Hhost.
Defined.

Lemma Unregister_failure_keeps_fileMap_witness :
  (RemoveConfig "h1.20880" "Greeter" stuckClient.(dynamicConfiguration)).1
  = Some (errorString "StoreIOError")
  ∧ (Unregister greeter stuckClient).2.(fileMap) = stuckClient.(fileMap).
Proof.
  destruct (Unregister_failure_keeps_fileMap greeter stuckClient
              (errorString "StoreIOError")) as (Hcause & Hmap & _).
  - by vm_compute.
  - split; [exact Hcause | exact Hmap].
Defined.

Lemma Register_Unregister_fileMap_witness :
  (Unregister greeter2 (Register greeter2 freshClient).2).2.(fileMap)
  = freshClient.(fileMap)
  ∧ (Unregister greeter (Register greeter freshClient).2).2.(fileMap)
      !! "h1.20880"
    = Some "/home/dubbo/.dubbo/registry/Greeter/h1.20880".
Proof.
  destruct (Register_Unregister_fileMap greeter2 freshClient
              (Register greeter2 freshClient).2
              (Unregister greeter2 (Register greeter2 freshClient).2).2)
    as [Hback _]; [by vm_compute..|].
  destruct (Register_Unregister_fileMap greeter freshClient
              (Register greeter freshClient).2
              (Unregister greeter (Register greeter freshClient).2).2)
    as [_ Hstays]; [by vm_compute..|].
  split.
  - apply Hback. by vm_compute.
  - apply Hstays. reflexivity.
Defined.

Lemma newFileSystemServiceDiscovery_error_witness :
  (newFileSystemServiceDiscovery "file" "backendA" factoryDownProcess).1
  = Err (errorString "could not find the config for name: backendA")
  ∧ (newFileSystemServiceDiscovery "file" "backendA" factoryDownProcess).2
      .(heap) = []
  ∧ (newFileSystemServiceDiscovery "file" "backendA" factoryDownProcess).2
      .(shutdownCallbacks) = []
  ∧ (newFileSystemServiceDiscovery "file" "backendA" rootHomeDownProcess).1
    = Err (errorString "could not find the config for name: backendA")
  ∧ (newFileSystemServiceDiscovery "file" "backendA" rootHomeDownProcess).2
      .(heap) = [].
Proof.
  destruct (newFileSystemServiceDiscovery_error "file" "backendA"
              factoryDownProcess
              (errorString "could not find the config for name: backendA"))
    as (Hheap & Hcallbacks & _); [by vm_compute|].
  destruct (newFileSystemServiceDiscovery_error "file" "backendA"
              rootHomeDownProcess
              (errorString "could not find the config for name: backendA"))
    as (Hheap' & _); [by vm_compute|].
  split; [by vm_compute|]. split; [exact Hheap|]. split; [exact Hcallbacks|].
  split; [by vm_compute | exact Hheap'].
Defined.

Lemma newFileSystemServiceDiscovery_success_witness :
  (newFileSystemServiceDiscovery "file" "backendA" freshProcess).2
    .(shutdownCallbacks) = [0%nat]
  ∧ (∃ sd,
       (newFileSystemServiceDiscovery "file" "backendA" freshProcess).2.(heap)
       = [sd]
       ∧ sd.(fileMap) = ∅
       ∧ sd.(rootPath) = "/home/dubbo/.dubbo/registry")
  ∧ (∃ sd,
       (newFileSystemServiceDiscovery "file" "backendA" slashHomeProcess).2
         .(heap) = [sd]
       ∧ sd.(rootPath) = "/home/dubbo/.dubbo/registry")
  ∧ (∃ sd,
       (newFileSystemServiceDiscovery "file" "backendA" rootHomeProcess).2
         .(heap) = [sd]
       ∧ sd.(rootPath) = "/.dubbo/registry").
Proof.
  destruct (newFileSystemServiceDiscovery_success "file" "backendA"
              freshProcess 0%nat)
    as (_ & _ & (rp & sd & Hhome & Hheap & _ & Hmap & Hroot) & Hcallbacks & _);
    [by vm_compute..|].
  destruct (newFileSystemServiceDiscovery_success "file" "backendA"
              slashHomeProcess 0%nat)
    as (_ & _ & (rp1 & sd1 & Hhome1 & Hheap1 & _ & _ & Hroot1) & _);
    [by vm_compute..|].
  destruct (newFileSystemServiceDiscovery_success "file" "backendA"
              rootHomeProcess 0%nat)
    as (_ & _ & (rp2 & sd2 & Hhome2 & Hheap2 & _ & _ & Hroot2) & _);
    [by vm_compute..|].
  split; [exact Hcallbacks|]. split; [|split].
  - exists sd. split; [exact Hheap|]. split; [exact Hmap|].
    rewrite Hroot. injection Hhome as <-. reflexivity.
  - exists sd1. split; [exact Hheap1|].
    rewrite Hroot1. injection Hhome1 as <-. reflexivity.
  - exists sd2. split; [exact Hheap2|].
    rewrite Hroot2. injection Hhome2 as <-. reflexivity.
Defined.

Lemma Destroy_after_Register_witness :
  (Destroy freshClient).2.(dynamicConfiguration)
  = freshClient.(dynamicConfiguration)
  ∧ (Destroy (Register greeter freshClient).2).2.(dynamicConfiguration)
      .(fs_files) = ∅.
Proof.
  destruct (Destroy_after_Register greeter freshClient
              (Register greeter freshClient).2)
    as (Hclose & Hremove & _); [by vm_compute..|].
  split.
  - rewrite Hclose. reflexivity.
  - rewrite Hremove. by vm_compute.
Defined.

End MoreRuns.
